(** * Sales tracker: the filter, aggregation and metrics core of [app.py]

    A shallow embedding of the four functions of [app.py] that carry the
    program's logic ([add_transaction], [get_filtered_data],
    [calculate_analytics], [calculate_business_metrics]) together with the
    parts of [datetime] and [pandas] they call.

    Conventions of the embedding:
    - a [DataFrame] of sales is the list of its rows, in row order;
    - Python [float] amounts are exact rationals ([Q]); results that hold
      up to the representation of a rational are stated with [==]; where
      the rounding of binary64 addition decides a property, the sums are
      taken over IEEE doubles in [Float64];
    - [None] for an optional argument is [None]; a pandas reduction that
      yields [NaN] on an empty [Series] yields [None];
    - a Python exception is the [Raise] constructor of [result];
    - [datetime.now()] is the explicit argument [today]. *)

From Stdlib Require Import List Sorted ZArith QArith Qfield Bool Lia.
From Stdlib Require Import Ascii String OrderedTypeEx.
From Stdlib Require Import Lqa SpecFloat Permutation.
Import ListNotations.

Local Open Scope Z_scope.

(** ** Exceptions *)

Inductive PyExn : Type :=
| ValueError
| UnboundLocalError.

Inductive result (A : Type) : Type :=
| Ok (a : A)
| Raise (e : PyExn).

Arguments Ok {A} a.
Arguments Raise {A} e.

Definition bind {A B : Type} (m : result A) (k : A -> result B) : result B :=
  match m with
  | Ok a => k a
  | Raise e => Raise e
  end.

Notation "x <- m ;; k" := (bind m (fun x => k))
  (at level 61, m at next level, right associativity).

(** ** [datetime.date] *)

Module PyDate.

Record date : Type := mkdate { year : Z; month : Z; day : Z }.

(** Python compares dates as the tuples [(year, month, day)]. *)
Definition compare (a b : date) : comparison :=
  match year a ?= year b with
  | Eq => match month a ?= month b with
          | Eq => day a ?= day b
          | c => c
          end
  | c => c
  end.

Definition geb (a b : date) : bool :=
  match compare a b with Lt => false | _ => true end.

Definition leb (a b : date) : bool :=
  match compare a b with Gt => false | _ => true end.

Definition ltb (a b : date) : bool :=
  match compare a b with Lt => true | _ => false end.

Definition _is_leap (y : Z) : bool :=
  (y mod 4 =? 0) && (negb (y mod 100 =? 0) || (y mod 400 =? 0)).

Definition _days_before_year (y : Z) : Z :=
  let y := y - 1 in y * 365 + y / 4 - y / 100 + y / 400.

Definition _DAYS_IN_MONTH : list Z :=
  [-1; 31; 28; 31; 30; 31; 30; 31; 31; 30; 31; 30; 31].

Definition _DAYS_BEFORE_MONTH : list Z :=
  [-1; 0; 31; 59; 90; 120; 151; 181; 212; 243; 273; 304; 334].

Definition b2z (b : bool) : Z := if b then 1 else 0.

Definition _days_before_month (y m : Z) : Z :=
  nth (Z.to_nat m) _DAYS_BEFORE_MONTH 0 + b2z ((2 <? m) && _is_leap y).

Definition _ymd2ord (y m d : Z) : Z :=
  _days_before_year y + _days_before_month y m + d.

Definition _DI400Y : Z := _days_before_year 401.
Definition _DI100Y : Z := _days_before_year 101.
Definition _DI4Y : Z := _days_before_year 5.

Definition _ord2ymd (n : Z) : date :=
  let n := n - 1 in
  let n400 := n / _DI400Y in
  let n := n mod _DI400Y in
  let y := n400 * 400 + 1 in
  let n100 := n / _DI100Y in
  let n := n mod _DI100Y in
  let n4 := n / _DI4Y in
  let n := n mod _DI4Y in
  let n1 := n / 365 in
  let n := n mod 365 in
  let y := y + n100 * 100 + n4 * 4 + n1 in
  if (n1 =? 4) || (n100 =? 4) then mkdate (y - 1) 12 31
  else
    let leapyear := (n1 =? 3) && (negb (n4 =? 24) || (n100 =? 3)) in
    let m := Z.shiftr (n + 50) 5 in
    let preceding :=
      nth (Z.to_nat m) _DAYS_BEFORE_MONTH 0 + b2z ((2 <? m) && leapyear) in
    if n <? preceding then
      let m := m - 1 in
      let preceding :=
        preceding
        - (nth (Z.to_nat m) _DAYS_IN_MONTH 0 + b2z ((m =? 2) && leapyear)) in
      mkdate y m (n - preceding + 1)
    else mkdate y m (n - preceding + 1).

Definition toordinal (d : date) : Z := _ymd2ord (year d) (month d) (day d).

Definition fromordinal (n : Z) : date := _ord2ymd n.

(** [d - timedelta(days=n)].  The program only subtracts 7 and 14 days from
    today's date, which stays inside [date.min .. date.max]. *)
Definition sub_days (d : date) (n : Z) : date := fromordinal (toordinal d - n).

Definition add_days (d : date) (n : Z) : date := fromordinal (toordinal d + n).

(** Monday is 0, Sunday is 6. *)
Definition weekday (d : date) : Z := (toordinal d + 6) mod 7.

Definition digit (n : Z) : ascii := ascii_of_nat (48 + Z.to_nat (n mod 10)).

Definition pad2 (n : Z) : string :=
  String (digit (n / 10)) (String (digit n) EmptyString).

Definition pad4 (n : Z) : string :=
  String (digit (n / 1000)) (String (digit (n / 100)) (pad2 n)).

Definition isoformat (d : date) : string :=
  (pad4 (year d) ++ "-" ++ pad2 (month d) ++ "-" ++ pad2 (day d))%string.

End PyDate.

Import PyDate.

(** ** The transaction store *)

(** One row of [st.session_state.sales_data], columns in the order of the
    program: date, product_name, price, quantity, seller, total_amount. *)
Record Transaction : Type := mkTransaction {
  t_date : date;
  product_name : string;
  price : Q;
  quantity : Z;
  seller : string;
  total_amount : Q
}.

Definition DataFrame : Type := list Transaction.

Definition empty (data : DataFrame) : bool :=
  match data with [] => true | _ => false end.

(** [add_transaction]: the session's frame is threaded explicitly;
    [pd.concat([sales_data, new_transaction])] puts the new row last. *)
Definition add_transaction (d : date) (product : string) (p : Q) (qty : Z)
    (s : string) (sales_data : DataFrame) : DataFrame :=
  let total := (p * inject_Z qty)%Q in
  let new_transaction := [mkTransaction d product p qty s total] in
  sales_data ++ new_transaction.

(** The states of the store: created empty, then only appended to. *)
Inductive reachable : DataFrame -> Prop :=
| reach_init : reachable []
| reach_add : forall d product p qty s sales_data,
    reachable sales_data ->
    reachable (add_transaction d product p qty s sales_data).

(** ** [get_filtered_data] *)

(** Truth value of an optional string argument: [None] and [""] are false. *)
Definition truthy (s : option string) : bool :=
  match s with
  | None => false
  | Some EmptyString => false
  | Some _ => true
  end.

Definition get_filtered_data (sales_data : DataFrame)
    (start_date end_date : option date) (seller_arg : option string)
    : DataFrame :=
  let data := sales_data in
  if empty data then data
  else
    let data :=
      match start_date with
      | Some s => filter (fun r => geb (t_date r) s) data
      | None => data
      end in
    let data :=
      match end_date with
      | Some e => filter (fun r => leb (t_date r) e) data
      | None => data
      end in
    let data :=
      match seller_arg with
      | Some s =>
          if truthy seller_arg && negb (s =? "All")%string
          then filter (fun r => (seller r =? s)%string) data
          else data
      | None => data
      end in
    data.

(** ** pandas reductions and [groupby] *)

(** [Series.sum()]: the entries are added to 0 from the first to the last. *)
Definition Qsum (l : list Q) : Q := fold_left Qplus l 0%Q.

Definition Zsum (l : list Z) : Z := fold_left Z.add l 0.

Definition len {A : Type} (l : list A) : Z := Z.of_nat (List.length l).

(** [Series.mean()]: [NaN] (here [None]) on an empty series. *)
Definition mean (l : list Q) : option Q :=
  match l with
  | [] => None
  | _ => Some (Qsum l / inject_Z (len l))%Q
  end.

Definition Qltb (a b : Q) : bool := negb (Qle_bool b a).

Section GroupBy.

Variable K : Type.
Variable cmp : K -> K -> comparison.

(** The groups of a [groupby]: one entry per distinct key, keys
    ascending, each with its rows in the order of the frame. *)
Definition Groups : Type := list (K * DataFrame).

Fixpoint insert_row (k : K) (r : Transaction) (gs : Groups) : Groups :=
  match gs with
  | [] => [(k, [r])]
  | (k', rows) :: gs' =>
      match cmp k k' with
      | Lt => (k, [r]) :: gs
      | Eq => (k', rows ++ [r]) :: gs'
      | Gt => (k', rows) :: insert_row k r gs'
      end
  end.

Definition groupby (key : Transaction -> K) (data : DataFrame) : Groups :=
  fold_left (fun gs r => insert_row (key r) r gs) data [].

(** A [Series] indexed by the group keys. *)
Definition Series (V : Type) : Type := list (K * V).

Definition agg {V : Type} (f : DataFrame -> V) (gs : Groups) : Series V :=
  map (fun g => (fst g, f (snd g))) gs.

Section Reductions.

Variable V : Type.
Variable ltb : V -> V -> bool.

(** Scan for the first entry holding the largest value: the running
    best entry changes only when a strictly larger value is met. *)
Fixpoint argmax_from (best : K * V) (s : Series V) : K * V :=
  match s with
  | [] => best
  | kv :: s' =>
      if ltb (snd best) (snd kv) then argmax_from kv s'
      else argmax_from best s'
  end.

(** [Series.idxmax()]: label of the first occurrence of the maximum;
    a [ValueError] on an empty series. *)
Definition idxmax (s : Series V) : result K :=
  match s with
  | [] => Raise ValueError
  | kv :: s' => Ok (fst (argmax_from kv s'))
  end.

(** [Series.max()]: [NaN] (here [None]) on an empty series. *)
Definition series_max (s : Series V) : option V :=
  match s with
  | [] => None
  | kv :: s' =>
      Some (fold_left (fun acc e => if ltb acc (snd e) then snd e else acc)
                      s' (snd kv))
  end.

End Reductions.

End GroupBy.

Arguments insert_row {K} cmp k r gs.
Arguments groupby {K} cmp key data.
Arguments agg {K V} f gs.
Arguments argmax_from {K V} ltb best s.
Arguments idxmax {K V} ltb s.
Arguments series_max {K V} ltb s.

(** ** [calculate_analytics] *)

(** The label of a bucket after [reset_index()]: a [date] for the daily
    rollup, the text of the period for the weekly and monthly ones. *)
Inductive IndexLabel : Type :=
| LDate (d : date)
| LStr (s : string).

Record Bucket : Type := mkBucket {
  b_label : IndexLabel;
  b_total_amount : Q;
  b_quantity : Z;
  transaction_count : Z
}.

(** [.agg({'total_amount': 'sum', 'quantity': 'sum', 'product_name': 'count'})] *)
Definition agg_bucket {K : Type} (label : K -> IndexLabel)
    (g : K * DataFrame) : Bucket :=
  mkBucket (label (fst g))
           (Qsum (map total_amount (snd g)))
           (Zsum (map quantity (snd g)))
           (len (map product_name (snd g))).

(** [dt.to_period('W')]: the week from Monday to Sunday holding the date,
    identified by its Monday. *)
Definition to_period_W (d : date) : date := sub_days d (weekday d).

Definition str_period_W (start : date) : string :=
  (isoformat start ++ "/" ++ isoformat (add_days start 6))%string.

(** [dt.to_period('M')]: the pair of year and month. *)
Definition to_period_M (d : date) : Z * Z := (year d, month d).

Definition compare_period_M (a b : Z * Z) : comparison :=
  match fst a ?= fst b with
  | Eq => snd a ?= snd b
  | c => c
  end.

Definition str_period_M (p : Z * Z) : string :=
  (pad4 (fst p) ++ "-" ++ pad2 (snd p))%string.

Definition calculate_analytics (data : DataFrame) (period : string)
    : result (list Bucket) :=
  if empty data then Ok []
  else
    let grouped : option (list Bucket) :=
      if (period =? "daily")%string then
        Some (map (agg_bucket LDate)
                  (groupby PyDate.compare t_date data))
      else if (period =? "weekly")%string then
        Some (map (agg_bucket (fun w => LStr (str_period_W w)))
                  (groupby PyDate.compare (fun r => to_period_W (t_date r)) data))
      else if (period =? "monthly")%string then
        Some (map (agg_bucket (fun m => LStr (str_period_M m)))
                  (groupby compare_period_M (fun r => to_period_M (t_date r)) data))
      else None in
    match grouped with
    | Some g => Ok g
    | None => Raise UnboundLocalError
    end.

(** ** [calculate_business_metrics] *)

Record Metrics : Type := mkMetrics {
  total_revenue : Q;
  total_transactions : Z;
  avg_order_value : option Q;
  total_quantity : Z;
  top_seller : string;
  top_seller_revenue : option Q;
  top_product : string;
  top_product_qty : option Z;
  daily_avg : Q;
  growth_rate : Q;
  monthly_revenue : Q;
  monthly_transactions : Z
}.

(** The returned dictionary: [{}] or the twelve metrics. *)
Inductive MetricsDict : Type :=
| EmptyDict
| Dict (m : Metrics).

(** [data.groupby('seller')['total_amount'].sum()] *)
Definition seller_totals (data : DataFrame) : Series string Q :=
  agg (fun rows => Qsum (map total_amount rows))
      (groupby String.compare seller data).

(** [data.groupby('product_name')['quantity'].sum()] *)
Definition product_quantities (data : DataFrame) : Series string Z :=
  agg (fun rows => Zsum (map quantity rows))
      (groupby String.compare product_name data).

Definition week_ago (today : date) : date := sub_days today 7.

Definition last_week_start (today : date) : date := sub_days (week_ago today) 7.

Definition recent_data (today : date) (data : DataFrame) : DataFrame :=
  filter (fun r => geb (t_date r) (week_ago today)) data.

Definition last_week_data (today : date) (data : DataFrame) : DataFrame :=
  filter (fun r => geb (t_date r) (last_week_start today)
                   && ltb (t_date r) (week_ago today)) data.

Definition this_week_revenue (today : date) (data : DataFrame) : Q :=
  Qsum (map total_amount (recent_data today data)).

Definition last_week_revenue (today : date) (data : DataFrame) : Q :=
  Qsum (map total_amount (last_week_data today data)).

Definition current_month (today : date) (data : DataFrame) : DataFrame :=
  filter (fun r => month (t_date r) =? month today) data.

Definition calculate_business_metrics (today : date) (data : DataFrame)
    : result MetricsDict :=
  if empty data then Ok EmptyDict
  else
    let total_revenue := Qsum (map total_amount data) in
    let total_transactions := len data in
    let avg_order_value := mean (map total_amount data) in
    let total_quantity := Zsum (map quantity data) in
    top_seller <-
      (if negb (empty data) then idxmax Qltb (seller_totals data)
       else Ok "N/A"%string) ;;
    let top_seller_revenue :=
      if negb (empty data) then series_max Qltb (seller_totals data)
      else Some 0%Q in
    top_product <-
      (if negb (empty data) then idxmax Z.ltb (product_quantities data)
       else Ok "N/A"%string) ;;
    let top_product_qty :=
      if negb (empty data) then series_max Z.ltb (product_quantities data)
      else Some 0 in
    let recent := recent_data today data in
    let daily_avg :=
      if negb (empty recent) then (Qsum (map total_amount recent) / 7)%Q
      else 0%Q in
    let this_week := this_week_revenue today data in
    let last_week := last_week_revenue today data in
    let growth_rate :=
      if Qltb 0 last_week
      then ((this_week - last_week) / last_week * 100)%Q
      else 0%Q in
    let monthly_revenue := Qsum (map total_amount (current_month today data)) in
    let monthly_transactions := len (current_month today data) in
    Ok (Dict (mkMetrics total_revenue total_transactions avg_order_value
                        total_quantity top_seller top_seller_revenue
                        top_product top_product_qty daily_avg growth_rate
                        monthly_revenue monthly_transactions)).

(** * The amounts as IEEE doubles *)

(** The column [total_amount] holds Python floats, that is binary64
    numbers, and pandas adds them one after the other with a rounding at
    each addition.  The reductions below are those of the program over
    the binary64 numbers of [SpecFloat] (53 bits of mantissa, exponents up
    to 1024). *)
Module Float64.

Definition double : Type := spec_float.

Definition prec : Z := 53.
Definition emax : Z := 1024.

Definition of_Z (z : Z) : double := binary_normalize prec emax z 0 false.

(** The double nearest to a decimal amount: the correctly rounded
    quotient of its numerator and denominator (both below 2^53). *)
Definition of_decimal (q : Q) : double :=
  SFdiv prec emax (of_Z (Qnum q)) (of_Z (Zpos (Qden q))).

Definition add : double -> double -> double := SFadd prec emax.

(** [Series.sum()] over doubles, from 0.0, first entry to last. *)
Definition sum (l : list double) : double := fold_left add l (S754_zero false).

(** The exact value of a finite double (0 for the others, which the sums
    of a shop's amounts do not reach). *)
Definition to_Q (x : double) : Q :=
  match x with
  | S754_finite sign m e =>
      let v := if sign then Zneg m else Zpos m in
      if 0 <=? e then inject_Z (v * 2 ^ e) else Qmake v (Z.to_pos (2 ^ (- e)))
  | _ => 0%Q
  end.

(** [rows['total_amount']] *)
Definition column (rows : DataFrame) : list double :=
  map (fun r => of_decimal (total_amount r)) rows.

(** [rows['total_amount'].sum()] *)
Definition total (rows : DataFrame) : double := sum (column rows).

(** The column [total_amount] of the daily rollup:
    [data.groupby(data['date'].dt.date).agg({'total_amount': 'sum'})]. *)
Definition daily_totals (data : DataFrame) : Series date double :=
  agg total (groupby PyDate.compare t_date data).

(** [data.groupby('seller')['total_amount'].sum()], each sum by its exact
    value: finite doubles compare as their values do. *)
Definition seller_totals (data : DataFrame) : Series string Q :=
  agg (fun rows => to_Q (total rows)) (groupby String.compare seller data).

(** [data.groupby('seller')['total_amount'].sum().idxmax()] *)
Definition top_seller (data : DataFrame) : result string :=
  idxmax Qltb (seller_totals data).

End Float64.

(** * Vocabulary of the properties *)

(** ** The calendar *)

(** The ordinals of 2020-01-01 to 2029-12-31. *)
Definition decade : list Z := map (fun i => 737425 + Z.of_nat i) (seq 0 3653).

(** ** The scenario of three sales *)

Definition scenario : DataFrame :=
  add_transaction (mkdate 2024 1 8) "Shirt" 100 1 "A"
    (add_transaction (mkdate 2024 1 1) "Saree" 500 1 "B"
      (add_transaction (mkdate 2024 1 1) "Shirt" 100 2 "A" [])).


(** ** The filter *)

(** Membership in the output as the specification words it: the seller
    argument filters unless it is unset or "All". *)
Definition passes_as_specified (start_date end_date : option date)
    (seller_arg : option string) (r : Transaction) : Prop :=
  (start_date = None \/ exists s, start_date = Some s /\ geb (t_date r) s = true)
  /\ (end_date = None \/ exists e, end_date = Some e /\ leb (t_date r) e = true)
  /\ (seller_arg = None \/ seller_arg = Some "All"%string
      \/ seller_arg = Some (seller r)).

(** Membership in the output as the program decides it: an empty seller
    text is false in [if seller and ...], so it filters nothing either. *)
Definition passes (start_date end_date : option date)
    (seller_arg : option string) (r : Transaction) : Prop :=
  (start_date = None \/ exists s, start_date = Some s /\ geb (t_date r) s = true)
  /\ (end_date = None \/ exists e, end_date = Some e /\ leb (t_date r) e = true)
  /\ (seller_arg = None \/ seller_arg = Some ""%string
      \/ seller_arg = Some "All"%string \/ seller_arg = Some (seller r)).

(** ** The trailing week *)

(** The window of [daily_avg] as the specification words it: the seven
    dates that end on the day of evaluation. *)
Definition in_trailing_week (today : date) (r : Transaction) : bool :=
  geb (t_date r) (sub_days today 6) && leb (t_date r) today.

Definition specified_daily_avg (today : date) (data : DataFrame) : Q :=
  (Qsum (map total_amount (filter (in_trailing_week today) data)) / 7)%Q.




(** ** Amounts that do not add up exactly in binary64 *)

(** 0.1 on one day, 0.2 and 0.3 on the next. *)
Definition drifting : DataFrame :=
  add_transaction (mkdate 2024 1 2) "Thread" (3 # 10) 1 "A"
    (add_transaction (mkdate 2024 1 2) "Thread" (2 # 10) 1 "A"
      (add_transaction (mkdate 2024 1 1) "Thread" (1 # 10) 1 "A" [])).



(** ** The store invariant *)

Definition consistent (r : Transaction) : Prop :=
  total_amount r = (price r * inject_Z (quantity r))%Q.

(** ** The periods of the rollup *)

Definition known_period (period : string) : Prop :=
  period = "daily"%string \/ period = "weekly"%string
  \/ period = "monthly"%string.

(** ** Sums by seller and by product *)

Definition seller_revenue (data : DataFrame) (s : string) : Q :=
  Qsum (map total_amount (filter (fun r => (seller r =? s)%string) data)).

Definition product_quantity (data : DataFrame) (p : string) : Z :=
  Zsum (map quantity (filter (fun r => (product_name r =? p)%string) data)).

(** ** Views of the groups of a [groupby] *)

Section GroupView.

Context {K : Type}.
Variable cmp : K -> K -> comparison.
Variable key : Transaction -> K.

Definition groups_count (gs : Groups K) : Z :=
  Zsum (map (fun g => len (map product_name (snd g))) gs).

Definition key_lt (a b : K) : Prop := cmp a b = Lt.

Definition same_key (k : K) (r : Transaction) : bool :=
  match cmp k (key r) with Eq => true | _ => false end.

(** The rows of the group of key [k], none when there is no such group. *)
Fixpoint rows_of (k : K) (gs : Groups K) : DataFrame :=
  match gs with
  | [] => []
  | (k', rows) :: gs' =>
      match cmp k k' with
      | Eq => rows
      | _ => rows_of k gs'
      end
  end.

End GroupView.

(** * The callers in [main] *)

(** ** The "Add Transaction" form *)

(** Truth value of a text input: only the empty text is false. *)
Definition nonempty_text (s : string) : bool :=
  match s with EmptyString => false | _ => true end.

(** [st.success] or [st.error] after the form is submitted. *)
Inductive Feedback : Type :=
| FormSuccess
| FormError.

(** The handler of the submitted form: the row is added only when
    [product_name and seller and price > 0 and quantity > 0]. *)
Definition submit_form (d : date) (product : string) (p : Q) (qty : Z)
    (s : string) (sales_data : DataFrame) : DataFrame * Feedback :=
  if nonempty_text product && nonempty_text s && Qltb 0 p && (0 <? qty)
  then (add_transaction d product p qty s sales_data, FormSuccess)
  else (sales_data, FormError).

(** The stores a session can hold: empty at first, then changed by
    submissions of the form only. *)
Inductive form_reachable : DataFrame -> Prop :=
| form_init : form_reachable []
| form_submit : forall d product p qty s sales_data,
    form_reachable sales_data ->
    form_reachable (fst (submit_form d product p qty s sales_data)).

(** ** The seller drop-down *)

(** [Series.unique()]: the distinct values in the order they first occur. *)
Definition unique (l : list string) : list string :=
  fold_left
    (fun seen x => if existsb (String.eqb x) seen then seen else seen ++ [x])
    l [].

(** [["All"] + list(sales_data['seller'].unique())] *)
Definition seller_options (sales_data : DataFrame) : list string :=
  "All"%string :: unique (map seller sales_data).

(** ** The trend chart of the dashboard *)

(** The frame plotted as "Last 7 Days Sales Trend", or [None] when the
    dashboard shows "No recent sales data for trend chart" instead. *)
Definition daily_trend (today : date) (sales_data : DataFrame)
    : option (Series date Q) :=
  let recent := recent_data today sales_data in
  if negb (empty recent)
  then Some (agg (fun rows => Qsum (map total_amount rows))
                 (groupby PyDate.compare t_date recent))
  else None.

(** ** The "Analytics" page *)

Inductive AnalyticsPage : Type :=
| NoTransactions
| NoDataInRange
| NoAnalyticsData
| Charts (analytics_data : list Bucket).

Definition analytics_page (sales_data : DataFrame) (period : string)
    (start_date end_date : option date) : result AnalyticsPage :=
  if empty sales_data then Ok NoTransactions
  else
    let filtered_data := get_filtered_data sales_data start_date end_date None in
    if empty filtered_data then Ok NoDataInRange
    else
      analytics_data <- calculate_analytics filtered_data period ;;
      match analytics_data with
      | [] => Ok NoAnalyticsData
      | _ => Ok (Charts analytics_data)
      end.

(** * Vocabulary of the further properties *)

(** The three tests of [get_filtered_data] on one row. *)
Definition keeps (start_date end_date : option date)
    (seller_arg : option string) (r : Transaction) : bool :=
  match start_date with Some s => geb (t_date r) s | None => true end
  && match end_date with Some e => leb (t_date r) e | None => true end
  && match seller_arg with
     | Some s =>
         if truthy seller_arg && negb (s =? "All")%string
         then (seller r =? s)%string
         else true
     | None => true
     end.

(** The rows of one day. *)
Definition on_date (d : date) (r : Transaction) : bool :=
  match PyDate.compare d (t_date r) with Eq => true | _ => false end.

(** A row as the form lets it in. *)
Definition valid_row (r : Transaction) : Prop :=
  product_name r <> ""%string
  /\ seller r <> ""%string
  /\ (0 < price r)%Q
  /\ 0 < quantity r
  /\ total_amount r = (price r * inject_Z (quantity r))%Q.

Definition amounts_nonneg (data : DataFrame) : Prop :=
  Forall (fun r => (0 <= total_amount r)%Q) data.

(** A store of two sellers over three weeks, entered through the form. *)
Definition ledger : DataFrame :=
  fst (submit_form (mkdate 2024 1 9) "Saree" 500 1 "B"
    (fst (submit_form (mkdate 2024 1 9) "" 10 1 "B"
      (fst (submit_form (mkdate 2024 1 8) "Shirt" 100 2 "A"
        (fst (submit_form (mkdate 2023 12 30) "Shirt" 100 4 "A" []))))))).

(** * Properties *)

(** ** The calendar *)

Example ord_2024_01_01 : toordinal (mkdate 2024 1 1) = 738886.
Proof. reflexivity. Qed.

Example calendar_samples :
  fromordinal 738886 = mkdate 2024 1 1
  /\ sub_days (mkdate 2024 3 1) 7 = mkdate 2024 2 23
  /\ sub_days (mkdate 2024 1 3) 7 = mkdate 2023 12 27
  /\ weekday (mkdate 2024 1 1) = 0
  /\ to_period_W (mkdate 2024 1 10) = mkdate 2024 1 8
  /\ str_period_W (mkdate 2024 1 29) = "2024-01-29/2024-02-04"%string
  /\ isoformat (mkdate 2024 1 8) = "2024-01-08"%string.
Proof. repeat split; reflexivity. Qed.

(** Over the decade, [fromordinal] inverts [toordinal], consecutive
    ordinals are consecutive dates in the order of dates, and the first
    and last dates are the ones expected. *)
Example calendar_decade :
  forallb (fun n => toordinal (fromordinal n) =? n) decade = true
  /\ forallb (fun n => PyDate.ltb (fromordinal n) (fromordinal (n + 1)))
             decade = true
  /\ fromordinal 737425 = mkdate 2020 1 1
  /\ fromordinal (737425 + 3652) = mkdate 2029 12 31.
Proof. repeat split; vm_compute; reflexivity. Qed.

(** ** Sums *)

Lemma fold_Qplus_acc (l : list Q) (a : Q) :
  (fold_left Qplus l a == a + Qsum l)%Q.
Proof.
  unfold Qsum. revert a.
  induction l as [|x l IH]; intros a; simpl.
  - ring.
  - rewrite (IH (a + x)%Q), (IH (0 + x)%Q). ring.
Qed.

Lemma Qsum_nil : Qsum [] = 0%Q.
Proof. reflexivity. Qed.

Lemma Qsum_cons (x : Q) (l : list Q) : (Qsum (x :: l) == x + Qsum l)%Q.
Proof.
  unfold Qsum at 1. simpl. rewrite fold_Qplus_acc. ring.
Qed.

Lemma Qsum_app (l1 l2 : list Q) : (Qsum (l1 ++ l2) == Qsum l1 + Qsum l2)%Q.
Proof.
  unfold Qsum at 1. rewrite fold_left_app, fold_Qplus_acc.
  reflexivity.
Qed.

Lemma fold_Zplus_acc (l : list Z) (a : Z) : fold_left Z.add l a = a + Zsum l.
Proof.
  unfold Zsum. revert a.
  induction l as [|x l IH]; intros a; simpl.
  - lia.
  - rewrite (IH (a + x)), (IH x). lia.
Qed.

Lemma Zsum_cons (x : Z) (l : list Z) : Zsum (x :: l) = x + Zsum l.
Proof.
  unfold Zsum at 1. simpl. apply fold_Zplus_acc.
Qed.

Lemma Zsum_app (l1 l2 : list Z) : Zsum (l1 ++ l2) = Zsum l1 + Zsum l2.
Proof.
  unfold Zsum at 1. rewrite fold_left_app. apply fold_Zplus_acc.
Qed.

Lemma len_app {A : Type} (l1 l2 : list A) : len (l1 ++ l2) = len l1 + len l2.
Proof.
  unfold len. rewrite length_app. lia.
Qed.

Lemma Qsum_nonneg (l : list Q) :
  Forall (fun x => 0 <= x)%Q l -> (0 <= Qsum l)%Q.
Proof.
  induction 1 as [|x l Hx _ IH].
  - unfold Qsum; simpl. apply Qle_refl.
  - rewrite Qsum_cons.
    setoid_replace 0%Q with (0 + 0)%Q by ring.
    apply Qplus_le_compat; assumption.
Qed.

(** ** [groupby] never loses a frame's rows *)

Section GroupByFacts.

Context {K : Type}.
Variable cmp : K -> K -> comparison.
Variable key : Transaction -> K.

Lemma insert_row_nonempty k r (gs : Groups K) : insert_row cmp k r gs <> [].
Proof.
  destruct gs as [|[k' rows] gs']; simpl; [discriminate|].
  destruct (cmp k k'); discriminate.
Qed.

Lemma groupby_snoc data r :
  groupby cmp key (data ++ [r]) = insert_row cmp (key r) r (groupby cmp key data).
Proof.
  unfold groupby. rewrite fold_left_app. reflexivity.
Qed.

Lemma groupby_nonempty data : data <> [] -> groupby cmp key data <> [].
Proof.
  destruct data as [|r data] using rev_ind; [congruence|].
  intros _. rewrite groupby_snoc. apply insert_row_nonempty.
Qed.

End GroupByFacts.

Lemma idxmax_nonempty {K V : Type} (ltb : V -> V -> bool) (s : Series K V) :
  s <> [] -> exists k, idxmax ltb s = Ok k.
Proof.
  destruct s as [|kv s']; [congruence|].
  intros _. eexists. reflexivity.
Qed.

Lemma agg_nonempty {K V : Type} (f : DataFrame -> V) (gs : Groups K) :
  gs <> [] -> agg f gs <> [].
Proof.
  destruct gs; [congruence|discriminate].
Qed.

(** On a frame with rows the function is the straight-line computation of
    its twelve fields around the two [idxmax] calls. *)
Lemma calculate_business_metrics_rows today data :
  data <> [] ->
  exists ts tp,
    idxmax Qltb (seller_totals data) = Ok ts
    /\ idxmax Z.ltb (product_quantities data) = Ok tp
    /\ calculate_business_metrics today data =
       Ok (Dict
         (mkMetrics
            (Qsum (map total_amount data))
            (len data)
            (mean (map total_amount data))
            (Zsum (map quantity data))
            ts
            (series_max Qltb (seller_totals data))
            tp
            (series_max Z.ltb (product_quantities data))
            (if negb (empty (recent_data today data))
             then (Qsum (map total_amount (recent_data today data)) / 7)%Q
             else 0%Q)
            (if Qltb 0 (last_week_revenue today data)
             then ((this_week_revenue today data - last_week_revenue today data)
                   / last_week_revenue today data * 100)%Q
             else 0%Q)
            (Qsum (map total_amount (current_month today data)))
            (len (current_month today data)))).
Proof.
  intros Hne.
  destruct (idxmax_nonempty Qltb (seller_totals data)) as [ts Hts].
  { apply agg_nonempty, groupby_nonempty, Hne. }
  destruct (idxmax_nonempty Z.ltb (product_quantities data)) as [tp Htp].
  { apply agg_nonempty, groupby_nonempty, Hne. }
  exists ts, tp. split; [exact Hts|]. split; [exact Htp|].
  unfold calculate_business_metrics.
  destruct data as [|r data]; [congruence|].
  cbv beta iota delta [empty negb].
  rewrite Hts, Htp. reflexivity.
Qed.

(** ** Basic metrics *)

(** C1: on the scenario of three sales the metrics are revenue 800, 3
    transactions, top seller "B" with revenue 500, whatever today's date;
    and on every frame with at least one row the function returns the
    metrics, with [total_revenue] the sum of [total_amount],
    [total_transactions] the number of rows, [avg_order_value] that sum
    divided by that number, and [total_quantity] the sum of [quantity]. *)
Theorem C1_basic_metrics (today : date) :
  (exists m,
      calculate_business_metrics today scenario = Ok (Dict m)
      /\ total_revenue m = 800%Q
      /\ total_transactions m = 3
      /\ top_seller m = "B"%string
      /\ top_seller_revenue m = Some 500%Q)
  /\ (forall data, data <> [] ->
      exists m,
        calculate_business_metrics today data = Ok (Dict m)
        /\ total_revenue m = Qsum (map total_amount data)
        /\ total_transactions m = Z.of_nat (List.length data)
        /\ avg_order_value m =
           Some (Qsum (map total_amount data)
                 / inject_Z (Z.of_nat (List.length data)))%Q
        /\ 0 < Z.of_nat (List.length data)
        /\ total_quantity m = Zsum (map quantity data)).
Proof.
  split.
  - destruct (calculate_business_metrics_rows today scenario)
      as (ts & tp & Hts & _ & Hm); [discriminate|].
    eexists. split; [exact Hm|].
    vm_compute in Hts. injection Hts as <-.
    repeat split; reflexivity.
  - intros data Hne.
    destruct (calculate_business_metrics_rows today data Hne)
      as (ts & tp & _ & _ & Hm).
    eexists. split; [exact Hm|]. cbn [total_revenue total_transactions
      avg_order_value total_quantity].
    repeat split.
    + destruct data as [|r data]; [congruence|].
      unfold mean, len. cbn [map List.length]. rewrite length_map. reflexivity.
    + destruct data; [congruence|]. cbn [List.length]. lia.
Qed.

Lemma C1_basic_metrics_witness :
  exists m,
    calculate_business_metrics (mkdate 2024 1 10) scenario = Ok (Dict m)
    /\ total_revenue m = Qsum (map total_amount scenario)
    /\ total_transactions m = Z.of_nat (List.length scenario)
    /\ avg_order_value m =
       Some (Qsum (map total_amount scenario)
             / inject_Z (Z.of_nat (List.length scenario)))%Q
    /\ 0 < Z.of_nat (List.length scenario)
    /\ total_quantity m = Zsum (map quantity scenario).
Proof.
  apply (proj2 (C1_basic_metrics (mkdate 2024 1 10)) scenario).
  discriminate.
Defined.

(** ** The filter *)

Lemma compare_refl (d : date) : PyDate.compare d d = Eq.
Proof.
  unfold PyDate.compare. rewrite !Z.compare_refl. reflexivity.
Qed.

Lemma in_optional_filter {A : Type} (o : option A)
    (f : A -> Transaction -> bool) (data : DataFrame) (r : Transaction) :
  In r (match o with Some s => filter (f s) data | None => data end)
  <-> In r data /\ (o = None \/ exists s, o = Some s /\ f s r = true).
Proof.
  destruct o as [s|].
  - rewrite filter_In. split.
    + intros [Hin Hf]. split; [exact Hin|]. right. exists s. now split.
    + intros [Hin [H|(s' & H & Hf)]]; [discriminate H|].
      injection H as <-. now split.
  - split; [intros Hin; split; [exact Hin|now left]|tauto].
Qed.

Lemma in_seller_filter (seller_arg : option string) (data : DataFrame)
    (r : Transaction) :
  In r (match seller_arg with
        | Some s =>
            if truthy seller_arg && negb (s =? "All")%string
            then filter (fun r => (seller r =? s)%string) data
            else data
        | None => data
        end)
  <-> In r data
      /\ (seller_arg = None \/ seller_arg = Some ""%string
          \/ seller_arg = Some "All"%string \/ seller_arg = Some (seller r)).
Proof.
  destruct seller_arg as [s|]; [|tauto].
  destruct (truthy (Some s) && negb (s =? "All")%string) eqn:Hs.
  - apply andb_true_iff in Hs as [Ht Hall].
    apply negb_true_iff, String.eqb_neq in Hall.
    assert (Hemp : s <> ""%string) by (intros ->; discriminate).
    rewrite filter_In, String.eqb_eq. split.
    + intros [Hin <-]. auto.
    + intros [Hin [H|[H|[H|H]]]]; try discriminate H;
        injection H as H; subst; try contradiction; auto.
  - split; [|tauto]. intros Hin. split; [exact Hin|].
    apply andb_false_iff in Hs as [Ht|Hall].
    + right; left. destruct s; [reflexivity|discriminate].
    + right; right; left.
      apply negb_false_iff, String.eqb_eq in Hall. now subst.
Qed.

(** C2 (as the program has it): a row is in the output of
    [get_filtered_data] exactly when it is in the store, its date is on or
    after [start_date] when that is given, on or before [end_date] when
    that is given, and the seller argument is unset, empty, "All" or
    exactly the row's seller; both bounds include the bound itself, and the
    function returns a frame for every combination of arguments. *)
Theorem C2_filter_membership
    (sales_data : DataFrame) (start_date end_date : option date)
    (seller_arg : option string) (r : Transaction) :
  (In r (get_filtered_data sales_data start_date end_date seller_arg)
   <-> In r sales_data /\ passes start_date end_date seller_arg r)
  /\ (forall d, geb d d = true /\ leb d d = true).
Proof.
  split.
  2:{ intros d. unfold geb, leb. rewrite compare_refl. split; reflexivity. }
  unfold get_filtered_data, passes.
  destruct sales_data as [|r0 data0]; [simpl; tauto|].
  cbv beta iota zeta delta [empty].
  rewrite in_seller_filter.
  rewrite (in_optional_filter end_date (fun e r => leb (t_date r) e)).
  rewrite (in_optional_filter start_date (fun s r => geb (t_date r) s)).
  tauto.
Qed.

(** C2 (as stated) fails: with the empty text as seller argument the
    program keeps a row of seller "A", which the stated condition (unset,
    "All" or exactly equal) excludes. *)
Lemma C2_empty_seller_counterexample :
  let r0 := mkTransaction (mkdate 2024 1 1) "Shirt" 100 2 "A" 200 in
  ~ (In r0 (get_filtered_data [r0] None None (Some ""%string))
     <-> In r0 [r0] /\ passes_as_specified None None (Some ""%string) r0).
Proof.
  intros r0 [Hfwd _].
  assert (Hin : In r0 (get_filtered_data [r0] None None (Some ""%string)))
    by (left; reflexivity).
  destruct (Hfwd Hin) as (_ & _ & _ & [H|[H|H]]); discriminate H.
Qed.

(** ** The store invariant *)

Lemma reachable_consistent (sales_data : DataFrame) :
  reachable sales_data -> Forall consistent sales_data.
Proof.
  induction 1 as [|d product p qty s sales_data _ IH].
  - constructor.
  - unfold add_transaction. apply Forall_app. split; [exact IH|].
    constructor; [reflexivity|constructor].
Qed.

(** C3: in every state of the store reached from the empty frame by
    [add_transaction], each row has [total_amount] equal to its price
    times its quantity, and for every non-empty set of rows drawn from the
    store the sum of [total_amount] is the sum of price times quantity. *)
Theorem C3_total_amount_invariant (sales_data : DataFrame) :
  reachable sales_data ->
  Forall (fun r => total_amount r = (price r * inject_Z (quantity r))%Q)
         sales_data
  /\ (forall records, records <> [] -> incl records sales_data ->
      Qsum (map total_amount records)
      = Qsum (map (fun r => (price r * inject_Z (quantity r))%Q) records)).
Proof.
  intros Hreach.
  pose proof (reachable_consistent sales_data Hreach) as Hall.
  split; [exact Hall|].
  intros records _ Hincl. f_equal.
  apply map_ext_in. intros r Hr.
  rewrite Forall_forall in Hall. apply Hall, Hincl, Hr.
Qed.

Lemma C3_total_amount_invariant_witness :
  Forall (fun r => total_amount r = (price r * inject_Z (quantity r))%Q)
         scenario
  /\ (forall records, records <> [] -> incl records scenario ->
      Qsum (map total_amount records)
      = Qsum (map (fun r => (price r * inject_Z (quantity r))%Q) records)).
Proof.
  apply (C3_total_amount_invariant scenario).
  unfold scenario. repeat apply reach_add. apply reach_init.
Defined.

(** ** Empty input and unknown periods *)

(** C7: on the empty frame [calculate_business_metrics] returns the empty
    dictionary and [calculate_analytics] returns the empty frame for every
    period; neither raises. *)
Theorem C7_empty_input (today : date) (period : string) :
  calculate_business_metrics today [] = Ok EmptyDict
  /\ calculate_analytics [] period = Ok [].
Proof.
  split; reflexivity.
Qed.

(** C10: [calculate_analytics] returns the empty frame on the empty frame
    for any period; on a frame with rows it returns a frame for the periods
    'daily', 'weekly' and 'monthly', and for any other period no branch
    binds [grouped] and the call fails with an [UnboundLocalError]. *)
Theorem C10_unknown_period (data : DataFrame) (period : string) :
  (data = [] -> calculate_analytics data period = Ok [])
  /\ (data <> [] -> known_period period ->
      exists buckets, calculate_analytics data period = Ok buckets)
  /\ (data <> [] -> ~ known_period period ->
      calculate_analytics data period = Raise UnboundLocalError).
Proof.
  unfold known_period.
  split; [intros ->; reflexivity|].
  split; intros Hne Hp.
  - destruct data as [|r data]; [congruence|].
    unfold calculate_analytics. cbv beta iota delta [empty].
    destruct Hp as [-> | [-> | ->]]; eexists; reflexivity.
  - destruct data as [|r data]; [congruence|].
    unfold calculate_analytics. cbv beta iota delta [empty].
    destruct (String.eqb_spec period "daily"); [tauto|].
    destruct (String.eqb_spec period "weekly"); [tauto|].
    destruct (String.eqb_spec period "monthly"); [tauto|].
    reflexivity.
Qed.

Lemma C10_unknown_period_witness :
  calculate_analytics scenario "yearly" = Raise UnboundLocalError
  /\ exists buckets, calculate_analytics scenario "weekly" = Ok buckets.
Proof.
  split.
  - apply (proj2 (proj2 (C10_unknown_period scenario "yearly"))).
    + discriminate.
    + unfold known_period. intros [H|[H|H]]; discriminate H.
  - apply (proj1 (proj2 (C10_unknown_period scenario "weekly"))).
    + discriminate.
    + unfold known_period. right; left; reflexivity.
Defined.

(** ** The trailing windows *)

(** C4 (the program at a sale dated tomorrow): evaluated on 2024-01-10, a
    single sale of 70 dated 2024-01-11 is in [recent_data] and gives a
    [daily_avg] of 10, where the sum over the seven dates ending on
    2024-01-10 divided by 7 is 0; the same holds for a sale dated
    2024-01-03, the eighth date counting back from the day of
    evaluation. *)
Theorem C4_window_has_no_upper_bound :
  let today := mkdate 2024 1 10 in
  let tomorrow := mkTransaction (mkdate 2024 1 11) "Shirt" 70 1 "A" 70 in
  let eighth := mkTransaction (mkdate 2024 1 3) "Shirt" 70 1 "A" 70 in
  (exists m,
      calculate_business_metrics today [tomorrow] = Ok (Dict m)
      /\ recent_data today [tomorrow] = [tomorrow]
      /\ (daily_avg m == 10)%Q
      /\ (specified_daily_avg today [tomorrow] == 0)%Q)
  /\ (exists m,
      calculate_business_metrics today [eighth] = Ok (Dict m)
      /\ recent_data today [eighth] = [eighth]
      /\ (daily_avg m == 10)%Q
      /\ (specified_daily_avg today [eighth] == 0)%Q).
Proof.
  split; eexists; (split; [vm_compute; reflexivity|]);
    repeat split; reflexivity.
Qed.

(** C6: on every frame with at least one row, [monthly_revenue] and
    [monthly_transactions] are the sum of [total_amount] and the number of
    rows over exactly the rows whose month number is the month number of
    the day of evaluation; the year plays no part. *)
Theorem C6_current_month_ignores_year (today : date) (data : DataFrame) :
  data <> [] ->
  exists m,
    calculate_business_metrics today data = Ok (Dict m)
    /\ monthly_revenue m
       = Qsum (map total_amount
                   (filter (fun r => month (t_date r) =? month today) data))
    /\ monthly_transactions m
       = Z.of_nat (List.length
                     (filter (fun r => month (t_date r) =? month today) data))
    /\ (forall r, In r (current_month today data)
                  <-> In r data /\ month (t_date r) = month today)
    /\ (forall r y, In r data -> month (t_date r) = month today ->
                    year (t_date r) = y -> In r (current_month today data)).
Proof.
  intros Hne.
  destruct (calculate_business_metrics_rows today data Hne)
    as (ts & tp & _ & _ & Hm).
  eexists. split; [exact Hm|].
  cbn [monthly_revenue monthly_transactions].
  assert (Hiff : forall r, In r (current_month today data)
                           <-> In r data /\ month (t_date r) = month today).
  { intros r. unfold current_month. rewrite filter_In, Z.eqb_eq. tauto. }
  repeat split; try apply Hiff; try tauto.
  intros r y Hin Hmonth _. apply Hiff. tauto.
Qed.

Lemma C6_current_month_ignores_year_witness :
  exists m,
    calculate_business_metrics (mkdate 2026 1 10) scenario = Ok (Dict m)
    /\ monthly_revenue m = 800%Q
    /\ monthly_transactions m = 3.
Proof.
  destruct (C6_current_month_ignores_year (mkdate 2026 1 10) scenario)
    as (m & Hm & Hrev & Htx & _); [discriminate|].
  exists m. split; [exact Hm|]. split; [rewrite Hrev|rewrite Htx]; reflexivity.
Defined.

(** ** Bucket sums *)

Section GroupSums.

Context {K : Type}.
Variable cmp : K -> K -> comparison.
Variable key : Transaction -> K.

Lemma groups_count_insert k r gs :
  groups_count (insert_row cmp k r gs) = groups_count gs + 1.
Proof.
  unfold groups_count.
  induction gs as [|[k' rows] gs IH]; cbn [insert_row map snd].
  - reflexivity.
  - destruct (cmp k k'); cbn [map snd]; rewrite !Zsum_cons.
    + rewrite map_app, len_app. cbn [map].
      change (len [product_name r]) with 1. lia.
    + change (len [product_name r]) with 1. lia.
    + rewrite IH. lia.
Qed.

Lemma groups_count_groupby data :
  groups_count (groupby cmp key data) = Z.of_nat (List.length data).
Proof.
  induction data as [|r data IH] using rev_ind.
  - reflexivity.
  - rewrite groupby_snoc, groups_count_insert, IH, length_app. simpl. lia.
Qed.

End GroupSums.

(** ** The first maximum of a series *)

Section ArgMax.

Context {K V : Type}.
Variable ltb : V -> V -> bool.
Hypothesis ltb_trans :
  forall a b c, ltb a b = true -> ltb b c = true -> ltb a c = true.
Hypothesis ltb_asym : forall a b, ltb a b = true -> ltb b a = false.
Hypothesis ltb_le_lt :
  forall a b c, ltb a b = false -> ltb a c = true -> ltb b c = true.

(** The scan splits the series at its result: strictly smaller values
    before it, no larger value after it. *)
Lemma argmax_from_split (s : Series K V) : forall best,
  exists l1 l2,
    best :: s = l1 ++ argmax_from ltb best s :: l2
    /\ Forall (fun e => ltb (snd e) (snd (argmax_from ltb best s)) = true) l1
    /\ Forall (fun e => ltb (snd (argmax_from ltb best s)) (snd e) = false) l2.
Proof.
  induction s as [|kv s IH]; intros best; cbn [argmax_from].
  - exists [], []. repeat split; constructor.
  - destruct (ltb (snd best) (snd kv)) eqn:Hlt.
    + destruct (IH kv) as (l1 & l2 & Heq & H1 & H2).
      exists (best :: l1), l2. split; [cbn; f_equal; exact Heq|].
      split; [|exact H2]. constructor; [|exact H1].
      destruct l1 as [|e l1].
      * injection Heq as <- _. exact Hlt.
      * injection Heq as <- _. inversion H1; subst.
        eapply ltb_trans; eassumption.
    + destruct (IH best) as (l1 & l2 & Heq & H1 & H2).
      destruct l1 as [|e l1].
      * injection Heq as Hbest Hs. exists [], (kv :: l2).
        split; [cbn; f_equal; [exact Hbest|f_equal; exact Hs]|].
        split; [constructor|]. constructor; [|exact H2].
        rewrite <- Hbest. exact Hlt.
      * injection Heq as <- Hs. inversion H1; subst.
        exists (best :: kv :: l1), l2.
        split; [cbn; do 2 f_equal; exact Hs|].
        split; [|exact H2]. constructor; [assumption|].
        constructor; [|assumption].
        eapply ltb_le_lt; eassumption.
Qed.

Lemma ltb_irrefl a : ltb a a = false.
Proof.
  destruct (ltb a a) eqn:H; [|reflexivity].
  rewrite (ltb_asym a a H) in H. discriminate H.
Qed.

Lemma argmax_from_max best (s : Series K V) e :
  In e (best :: s) -> ltb (snd (argmax_from ltb best s)) (snd e) = false.
Proof.
  destruct (argmax_from_split s best) as (l1 & l2 & Heq & H1 & H2).
  rewrite Heq. intros Hin. apply in_app_or in Hin as [Hin|[<-|Hin]].
  - rewrite Forall_forall in H1. apply ltb_asym, H1, Hin.
  - apply ltb_irrefl.
  - rewrite Forall_forall in H2. apply H2, Hin.
Qed.

End ArgMax.

Lemma sorted_after {A : Type} (R : A -> A -> Prop) (l1 l2 : list A) (x : A) :
  StronglySorted R (l1 ++ x :: l2) -> Forall (R x) l2.
Proof.
  induction l1 as [|a l1 IH]; cbn; intros H; inversion H; subst; auto.
Qed.

(** ** The groups of a [groupby] *)

Section Grouping.

Context {K : Type}.
Variable cmp : K -> K -> comparison.
Hypothesis cmp_eq : forall a b, cmp a b = Eq <-> a = b.
Hypothesis cmp_antisym : forall a b, cmp a b = CompOpp (cmp b a).
Hypothesis cmp_trans :
  forall a b c, cmp a b = Lt -> cmp b c = Lt -> cmp a c = Lt.
Variable key : Transaction -> K.

Lemma cmp_refl k : cmp k k = Eq.
Proof. now apply cmp_eq. Qed.

Lemma insert_row_keys (P : K -> Prop) k r gs :
  P k -> Forall P (map fst gs) -> Forall P (map fst (insert_row cmp k r gs)).
Proof.
  intros Hk. induction gs as [|[k' rows] gs IH]; cbn [insert_row map fst].
  - intros _. constructor; [exact Hk|constructor].
  - intros H. inversion H; subst.
    destruct (cmp k k'); cbn [map fst]; repeat constructor; auto.
Qed.

Lemma insert_row_sorted k r gs :
  StronglySorted (key_lt cmp) (map fst gs) ->
  StronglySorted (key_lt cmp) (map fst (insert_row cmp k r gs)).
Proof.
  induction gs as [|[k' rows] gs IH]; cbn [insert_row map fst]; intros H.
  - repeat constructor.
  - inversion H as [|? ? Hs Hall]; subst.
    destruct (cmp k k') eqn:Hc; cbn [map fst].
    + constructor; assumption.
    + constructor; [exact H|]. constructor; [exact Hc|].
      eapply Forall_impl; [|exact Hall]. intros b Hb.
      unfold key_lt in *. eapply cmp_trans; eassumption.
    + constructor; [apply IH, Hs|].
      apply insert_row_keys; [|exact Hall].
      unfold key_lt. rewrite cmp_antisym, Hc. reflexivity.
Qed.

Lemma groupby_sorted data :
  StronglySorted (key_lt cmp) (map fst (groupby cmp key data)).
Proof.
  induction data as [|r data IH] using rev_ind.
  - constructor.
  - rewrite groupby_snoc. apply insert_row_sorted, IH.
Qed.

Lemma rows_of_above k gs :
  Forall (key_lt cmp k) (map fst gs) -> rows_of cmp k gs = [].
Proof.
  induction gs as [|[k' rows] gs IH]; cbn [rows_of map fst]; intros H.
  - reflexivity.
  - inversion H as [|? ? Hk Hall]; subst. unfold key_lt in Hk.
    rewrite Hk. apply IH, Hall.
Qed.

Lemma rows_of_insert_row k r gs :
  StronglySorted (key_lt cmp) (map fst gs) ->
  rows_of cmp k (insert_row cmp (key r) r gs)
  = rows_of cmp k gs ++ (if same_key cmp key k r then [r] else []).
Proof.
  intros Hs. unfold same_key.
  induction gs as [|[k' rows] gs IH]; cbn [insert_row rows_of map fst] in *.
  - destruct (cmp k (key r)); reflexivity.
  - inversion Hs as [|? ? Hs' Hall]; subst.
    destruct (cmp (key r) k') eqn:Hc; cbn [rows_of].
    + apply cmp_eq in Hc. subst k'.
      destruct (cmp k (key r)); [reflexivity|now rewrite app_nil_r ..].
    + destruct (cmp k (key r)) eqn:Hk.
      * apply cmp_eq in Hk. subst k. rewrite Hc.
        rewrite rows_of_above; [reflexivity|].
        eapply Forall_impl; [|exact Hall]. intros b Hb.
        unfold key_lt in *. eapply cmp_trans; eassumption.
      * now rewrite app_nil_r.
      * now rewrite app_nil_r.
    + destruct (cmp k k') eqn:Hk.
      * apply cmp_eq in Hk. subst k'.
        rewrite (cmp_antisym k (key r)), Hc. cbn. now rewrite app_nil_r.
      * apply IH, Hs'.
      * apply IH, Hs'.
Qed.

Lemma rows_of_groupby k data :
  rows_of cmp k (groupby cmp key data) = filter (same_key cmp key k) data.
Proof.
  induction data as [|r data IH] using rev_ind.
  - reflexivity.
  - rewrite groupby_snoc, filter_app. cbn [filter].
    rewrite (rows_of_insert_row k r _ (groupby_sorted data)), IH.
    reflexivity.
Qed.

Lemma rows_of_member k rows gs :
  StronglySorted (key_lt cmp) (map fst gs) ->
  In (k, rows) gs -> rows_of cmp k gs = rows.
Proof.
  induction gs as [|[k' rows'] gs IH]; cbn [rows_of map fst In]; intros Hs Hin.
  - contradiction.
  - inversion Hs as [|? ? Hs' Hall]; subst.
    destruct Hin as [Heq|Hin].
    + injection Heq as -> ->. now rewrite cmp_refl.
    + assert (Hlt : key_lt cmp k' k).
      { rewrite Forall_forall in Hall. apply Hall.
        apply (in_map fst) in Hin. exact Hin. }
      unfold key_lt in Hlt.
      rewrite (cmp_antisym k k'), Hlt. cbn. apply IH; assumption.
Qed.

Lemma insert_row_has_key k r gs : In k (map fst (insert_row cmp k r gs)).
Proof.
  induction gs as [|[k' rows] gs IH]; cbn [insert_row map fst In].
  - now left.
  - destruct (cmp k k') eqn:Hc; cbn [map fst In].
    + apply cmp_eq in Hc. now left.
    + now left.
    + right. exact IH.
Qed.

Lemma insert_row_keeps_keys k r gs k0 :
  In k0 (map fst gs) -> In k0 (map fst (insert_row cmp k r gs)).
Proof.
  induction gs as [|[k' rows] gs IH]; cbn [insert_row map fst In].
  - contradiction.
  - intros Hin. destruct (cmp k k'); cbn [map fst In]; tauto.
Qed.

Lemma groupby_has_key data r :
  In r data -> In (key r) (map fst (groupby cmp key data)).
Proof.
  induction data as [|r' data IH] using rev_ind; [contradiction|].
  intros Hin. rewrite groupby_snoc.
  apply in_app_or in Hin as [Hin|[<-|[]]].
  - apply insert_row_keeps_keys, IH, Hin.
  - apply insert_row_has_key.
Qed.

Lemma insert_row_groups_nonempty k r gs :
  Forall (fun g => snd g <> []) gs ->
  Forall (fun g => snd g <> []) (insert_row cmp k r gs).
Proof.
  induction gs as [|[k' rows] gs IH]; cbn [insert_row]; intros H.
  - constructor; [discriminate|constructor].
  - inversion H; subst.
    destruct (cmp k k'); constructor; auto.
    + cbn. intros E. apply app_eq_nil in E as [_ E]. discriminate E.
    + discriminate.
Qed.

Lemma groupby_groups_nonempty data :
  Forall (fun g => snd g <> []) (groupby cmp key data).
Proof.
  induction data as [|r data IH] using rev_ind.
  - constructor.
  - rewrite groupby_snoc. apply insert_row_groups_nonempty, IH.
Qed.

Lemma same_key_eq k r : same_key cmp key k r = true <-> key r = k.
Proof.
  unfold same_key. destruct (cmp k (key r)) eqn:Hc.
  - apply cmp_eq in Hc. split; auto.
  - split; [discriminate|]. intros E. rewrite E, cmp_refl in Hc. discriminate.
  - split; [discriminate|]. intros E. rewrite E, cmp_refl in Hc. discriminate.
Qed.

End Grouping.

(** ** The top of a grouped sum *)

Section TopOfGroups.

Context {K V : Type}.
Variable cmp : K -> K -> comparison.
Hypothesis cmp_eq : forall a b, cmp a b = Eq <-> a = b.
Hypothesis cmp_antisym : forall a b, cmp a b = CompOpp (cmp b a).
Hypothesis cmp_trans :
  forall a b c, cmp a b = Lt -> cmp b c = Lt -> cmp a c = Lt.
Variable ltb : V -> V -> bool.
Hypothesis ltb_trans :
  forall a b c, ltb a b = true -> ltb b c = true -> ltb a c = true.
Hypothesis ltb_asym : forall a b, ltb a b = true -> ltb b a = false.
Hypothesis ltb_le_lt :
  forall a b c, ltb a b = false -> ltb a c = true -> ltb b c = true.
Variable key : Transaction -> K.
Variable f : DataFrame -> V.

(** The aggregate of the rows of one key. *)
Let val (data : DataFrame) (k : K) : V := f (filter (same_key cmp key k) data).

Lemma agg_entry data e :
  In e (agg f (groupby cmp key data)) -> snd e = val data (fst e).
Proof.
  unfold agg. intros Hin. apply in_map_iff in Hin as ([k rows] & <- & Hg).
  cbn [fst snd]. unfold val.
  rewrite <- (rows_of_groupby cmp cmp_eq cmp_antisym cmp_trans key k data).
  rewrite (rows_of_member cmp cmp_eq cmp_antisym k rows);
    [reflexivity|apply groupby_sorted; assumption|exact Hg].
Qed.

Lemma agg_keys (gs : Groups K) : map fst (agg f gs) = map fst gs.
Proof.
  unfold agg. rewrite map_map. reflexivity.
Qed.

Lemma agg_has_entry data r :
  In r data -> In (key r, val data (key r)) (agg f (groupby cmp key data)).
Proof.
  intros Hin.
  pose proof (groupby_has_key cmp cmp_eq key data r Hin) as Hk.
  rewrite <- agg_keys in Hk. apply in_map_iff in Hk as ([k v] & Hfst & He).
  cbn in Hfst. subst k.
  pose proof (agg_entry data _ He) as Hv. cbn [fst snd] in Hv.
  rewrite <- Hv. exact He.
Qed.

(** [idxmax] of a grouped aggregate: a key of the frame whose aggregate no
    other key exceeds, and which is not above any key that equals it. *)
Lemma idxmax_groupby data :
  data <> [] ->
  exists k,
    idxmax ltb (agg f (groupby cmp key data)) = Ok k
    /\ (exists r, In r data /\ key r = k)
    /\ (forall r, In r data -> ltb (val data k) (val data (key r)) = false)
    /\ (forall r, In r data ->
        ltb (val data (key r)) (val data k) = false -> cmp k (key r) <> Gt).
Proof.
  intros Hne.
  pose proof (groupby_sorted cmp cmp_antisym cmp_trans key data) as Hsorted.
  rewrite <- agg_keys in Hsorted.
  pose proof (agg_entry data) as Hentry.
  pose proof (agg_has_entry data) as Hhas.
  assert (Hrows : forall e, In e (agg f (groupby cmp key data)) ->
                            exists r, In r data /\ key r = fst e).
  { intros e He. unfold agg in He.
    apply in_map_iff in He as ([k rows] & <- & Hg). cbn [fst].
    pose proof (groupby_groups_nonempty cmp key data) as Hall.
    rewrite Forall_forall in Hall. specialize (Hall _ Hg). cbn in Hall.
    rewrite <- (rows_of_member cmp cmp_eq cmp_antisym k rows
                  (groupby cmp key data)) in Hall;
      [|apply groupby_sorted; assumption|exact Hg].
    rewrite (rows_of_groupby cmp cmp_eq cmp_antisym cmp_trans) in Hall.
    destruct (filter (same_key cmp key k) data) as [|r rs] eqn:Hf;
      [congruence|].
    assert (Hr : In r (filter (same_key cmp key k) data))
      by (rewrite Hf; now left).
    apply filter_In in Hr as [Hr Hk]. exists r. split; [exact Hr|].
    now apply (same_key_eq cmp cmp_eq key). }
  destruct (agg f (groupby cmp key data)) as [|kv s] eqn:Hs.
  { exfalso. revert Hs. apply agg_nonempty, groupby_nonempty, Hne. }
  cbn [idxmax].
  destruct (argmax_from_split ltb ltb_trans ltb_le_lt s kv)
    as (l1 & l2 & Heq & H1 & H2).
  set (a := argmax_from ltb kv s) in *.
  assert (Ha : In a (kv :: s)) by (rewrite Heq; apply in_elt).
  exists (fst a). split; [reflexivity|].
  split; [apply Hrows, Ha|].
  rewrite <- (Hentry a Ha).
  split.
  - intros r Hr. specialize (Hhas r Hr).
    apply (argmax_from_max ltb ltb_trans ltb_asym ltb_le_lt kv s) in Hhas.
    exact Hhas.
  - intros r Hr Htie. specialize (Hhas r Hr).
    rewrite Heq in Hhas, Hsorted.
    apply in_app_or in Hhas as [Hin|[Hin|Hin]].
    + rewrite Forall_forall in H1. apply H1 in Hin. cbn [snd] in Hin.
      congruence.
    + rewrite Hin. cbn [fst]. rewrite (proj2 (cmp_eq _ _) eq_refl).
      discriminate.
    + rewrite map_app in Hsorted. cbn [map] in Hsorted.
      apply sorted_after in Hsorted. rewrite Forall_forall in Hsorted.
      apply (in_map fst) in Hin. apply Hsorted in Hin.
      cbn [fst] in Hin. unfold key_lt in Hin. rewrite Hin. discriminate.
Qed.

End TopOfGroups.

(** ** Ties for the top seller and the top product *)

Lemma Qltb_lt (a b : Q) : Qltb a b = true <-> (a < b)%Q.
Proof.
  unfold Qltb. rewrite negb_true_iff. split.
  - intros H. apply Qnot_le_lt. intros Hle.
    apply Qle_bool_iff in Hle. congruence.
  - intros H. destruct (Qle_bool b a) eqn:Hle; [|reflexivity].
    apply Qle_bool_iff in Hle. exfalso. exact (Qlt_not_le _ _ H Hle).
Qed.

Lemma Qltb_ge (a b : Q) : Qltb a b = false <-> (b <= a)%Q.
Proof.
  unfold Qltb. rewrite negb_false_iff. apply Qle_bool_iff.
Qed.

Lemma string_compare_trans (a b c : string) :
  String.compare a b = Lt -> String.compare b c = Lt -> String.compare a c = Lt.
Proof.
  intros H1 H2.
  apply (String_as_OT.cmp_lt a c).
  apply (String_as_OT.lt_trans a b c); now apply String_as_OT.cmp_lt.
Qed.

Lemma same_key_string (key : Transaction -> string) (k : string)
    (data : DataFrame) :
  filter (same_key String.compare key k) data
  = filter (fun r => (key r =? k)%string) data.
Proof.
  apply filter_ext. intros r.
  destruct (String.eqb_spec (key r) k) as [E|E].
  - now apply (same_key_eq String.compare String_as_OT.cmp_eq key).
  - destruct (same_key String.compare key k r) eqn:H; [|reflexivity].
    apply (same_key_eq String.compare String_as_OT.cmp_eq key) in H.
    contradiction.
Qed.

(** * Further properties *)

(** ** The order of dates *)

Lemma date_compare_eq (a b : date) : PyDate.compare a b = Eq <-> a = b.
Proof.
  split; [|intros ->; apply compare_refl].
  destruct a as [y1 m1 d1], b as [y2 m2 d2]. unfold PyDate.compare. cbn.
  destruct (Z.compare_spec y1 y2); try discriminate.
  destruct (Z.compare_spec m1 m2); try discriminate.
  destruct (Z.compare_spec d1 d2); try discriminate.
  intros _. congruence.
Qed.

Lemma date_compare_antisym (a b : date) :
  PyDate.compare a b = CompOpp (PyDate.compare b a).
Proof.
  destruct a as [y1 m1 d1], b as [y2 m2 d2]. unfold PyDate.compare. cbn.
  rewrite (Z.compare_antisym y2 y1), (Z.compare_antisym m2 m1),
    (Z.compare_antisym d2 d1).
  destruct (y2 ?= y1); cbn; try reflexivity.
  destruct (m2 ?= m1); cbn; reflexivity.
Qed.

Lemma date_compare_lt (a b : date) :
  PyDate.compare a b = Lt
  <-> year a < year b
      \/ (year a = year b
          /\ (month a < month b \/ (month a = month b /\ day a < day b))).
Proof.
  destruct a as [y1 m1 d1], b as [y2 m2 d2]. unfold PyDate.compare. cbn.
  destruct (Z.compare_spec y1 y2); [|split; [lia|reflexivity]
                                    |split; [discriminate|lia]].
  destruct (Z.compare_spec m1 m2); [|split; [lia|reflexivity]
                                    |split; [discriminate|lia]].
  destruct (Z.compare_spec d1 d2); split; try discriminate; try lia;
    reflexivity.
Qed.

Lemma date_compare_trans (a b c : date) :
  PyDate.compare a b = Lt -> PyDate.compare b c = Lt ->
  PyDate.compare a c = Lt.
Proof.
  rewrite !date_compare_lt. lia.
Qed.

(** ** The form *)

Lemma nonempty_text_iff (s : string) : nonempty_text s = true <-> s <> ""%string.
Proof.
  destruct s; cbn; split; congruence.
Qed.

(** X1: a submission is refused exactly when the product or the seller is
    empty or the price or the quantity is not positive, and then the store
    is left as it was; otherwise the store gains one row at its end, with
    [total_amount] the price times the quantity, and keeps all its rows. *)
Theorem X1_submit_form_effect (d : date) (product : string) (p : Q)
    (qty : Z) (s : string) (sales_data : DataFrame) :
  let refused :=
    product = ""%string \/ s = ""%string \/ (p <= 0)%Q \/ qty <= 0 in
  (refused ->
   submit_form d product p qty s sales_data = (sales_data, FormError))
  /\ (~ refused ->
      submit_form d product p qty s sales_data
      = (sales_data
           ++ [mkTransaction d product p qty s (p * inject_Z qty)%Q],
         FormSuccess)).
Proof.
  unfold submit_form.
  destruct (nonempty_text product) eqn:Hp; cbn [andb].
  2:{ destruct product; [|discriminate]. split; [reflexivity|tauto]. }
  apply nonempty_text_iff in Hp.
  destruct (nonempty_text s) eqn:Hs; cbn [andb].
  2:{ destruct s; [|discriminate]. split; [reflexivity|tauto]. }
  apply nonempty_text_iff in Hs.
  destruct (Qltb 0 p) eqn:Hprice; cbn [andb].
  2:{ apply Qltb_ge in Hprice. split; [reflexivity|tauto]. }
  apply Qltb_lt in Hprice.
  destruct (0 <? qty) eqn:Hq.
  - apply Z.ltb_lt in Hq. split; [|reflexivity].
    intros [H|[H|[H|H]]]; try contradiction; try lia.
    exfalso. exact (Qlt_not_le _ _ Hprice H).
  - apply Z.ltb_ge in Hq. split; [reflexivity|tauto].
Qed.

Lemma X1_submit_form_effect_witness :
  submit_form (mkdate 2024 1 9) "" 10 1 "B" scenario = (scenario, FormError)
  /\ submit_form (mkdate 2024 1 9) "Saree" 500 1 "B" []
     = ([mkTransaction (mkdate 2024 1 9) "Saree" 500 1 "B"
                       (500 * inject_Z 1)%Q], FormSuccess).
Proof.
  split.
  - apply (proj1 (X1_submit_form_effect (mkdate 2024 1 9) "" 10 1 "B" scenario)).
    left. reflexivity.
  - apply (proj2 (X1_submit_form_effect (mkdate 2024 1 9) "Saree" 500 1 "B" [])).
    intros [H|[H|[H|H]]]; try discriminate H.
    + apply H. reflexivity.
    + lia.
Defined.

Lemma rows_valid_of_form (sales_data : DataFrame) :
  form_reachable sales_data ->
  Forall valid_row sales_data
  /\ Forall (fun r => (0 < total_amount r)%Q) sales_data.
Proof.
  intros Hreach.
  assert (Hvalid : Forall valid_row sales_data).
  { induction Hreach as [|d product p qty s sales_data _ IH];
      [constructor|].
    unfold submit_form.
    destruct (nonempty_text product) eqn:Hp; [|exact IH].
    destruct (nonempty_text s) eqn:Hs; [|exact IH].
    destruct (Qltb 0 p) eqn:Hprice; [|exact IH].
    destruct (0 <? qty) eqn:Hq; [|exact IH].
    cbn [andb fst]. unfold add_transaction.
    apply Forall_app. split; [exact IH|].
    constructor; [|constructor].
    unfold valid_row. cbn.
    repeat split.
    - now apply nonempty_text_iff.
    - now apply nonempty_text_iff.
    - now apply Qltb_lt.
    - now apply Z.ltb_lt. }
  split; [exact Hvalid|].
  eapply Forall_impl; [|exact Hvalid].
  intros r (_ & _ & Hprice & Hqty & ->).
  apply Qmult_lt_0_compat; [exact Hprice|].
  unfold Qlt. cbn. lia.
Qed.

(** X2: whatever is submitted, in whatever order, every row of the store
    has a product and a seller that are not empty, a positive price, a
    positive quantity and [total_amount] equal to their product, hence a
    positive amount; and a later store begins with the rows of the store
    it came from. *)
Theorem X2_form_rows_valid (sales_data : DataFrame) :
  form_reachable sales_data ->
  Forall valid_row sales_data
  /\ Forall (fun r => (0 < total_amount r)%Q) sales_data
  /\ (forall d product p qty s,
      exists added,
        fst (submit_form d product p qty s sales_data) = sales_data ++ added).
Proof.
  intros Hreach.
  destruct (rows_valid_of_form sales_data Hreach) as [Hvalid Hpos].
  split; [exact Hvalid|]. split; [exact Hpos|].
  intros d product p qty s. unfold submit_form.
  destruct (nonempty_text product && nonempty_text s && Qltb 0 p && (0 <? qty)).
  - eexists. reflexivity.
  - exists []. cbn. now rewrite app_nil_r.
Qed.

Lemma ledger_reachable : form_reachable ledger.
Proof.
  unfold ledger. repeat apply form_submit. apply form_init.
Qed.

Lemma X2_form_rows_valid_witness :
  Forall valid_row ledger
  /\ Forall (fun r => (0 < total_amount r)%Q) ledger.
Proof.
  destruct (X2_form_rows_valid ledger) as (Hvalid & Hpos & _).
  - unfold ledger. repeat apply form_submit. apply form_init.
  - split; assumption.
Defined.

(** ** The filter as one pass *)

Lemma filter_both {A : Type} (f g : A -> bool) (l : list A) :
  filter g (filter f l) = filter (fun x => f x && g x) l.
Proof.
  induction l as [|x l IH]; [reflexivity|]. cbn.
  destruct (f x); cbn; [destruct (g x)|]; rewrite IH; reflexivity.
Qed.

Lemma filter_all {A : Type} (l : list A) : filter (fun _ => true) l = l.
Proof.
  induction l as [|x l IH]; [reflexivity|]. cbn. now rewrite IH.
Qed.

Lemma get_filtered_data_one_pass (sales_data : DataFrame)
    (start_date end_date : option date) (seller_arg : option string) :
  get_filtered_data sales_data start_date end_date seller_arg
  = filter (keeps start_date end_date seller_arg) sales_data.
Proof.
  unfold get_filtered_data, keeps.
  destruct sales_data as [|r0 data0]; [reflexivity|].
  cbv beta iota zeta delta [empty].
  set (data := r0 :: data0).
  assert (Hs : forall l : DataFrame,
    match start_date with
    | Some s => filter (fun r => geb (t_date r) s) l
    | None => l
    end
    = filter (fun r => match start_date with
                       | Some s => geb (t_date r) s
                       | None => true
                       end) l).
  { intros l. destruct start_date; [reflexivity|now rewrite filter_all]. }
  assert (He : forall l : DataFrame,
    match end_date with
    | Some e => filter (fun r => leb (t_date r) e) l
    | None => l
    end
    = filter (fun r => match end_date with
                       | Some e => leb (t_date r) e
                       | None => true
                       end) l).
  { intros l. destruct end_date; [reflexivity|now rewrite filter_all]. }
  assert (Hv : forall l : DataFrame,
    match seller_arg with
    | Some s =>
        if truthy seller_arg && negb (s =? "All")%string
        then filter (fun r => (seller r =? s)%string) l
        else l
    | None => l
    end
    = filter (fun r => match seller_arg with
                       | Some s =>
                           if truthy seller_arg && negb (s =? "All")%string
                           then (seller r =? s)%string
                           else true
                       | None => true
                       end) l).
  { intros l. destruct seller_arg as [s|]; [|now rewrite filter_all].
    destruct (truthy (Some s) && negb (s =? "All")%string);
      [reflexivity|now rewrite filter_all]. }
  rewrite Hv, He, Hs, !filter_both.
  apply filter_ext. intros r. now rewrite andb_assoc.
Qed.

(** X3: filtering what the filter returned, with the same arguments,
    returns it again row for row; and what the filter returns is the rows
    of the store that pass, in the order of the store. *)
Theorem X3_filter_idempotent (sales_data : DataFrame)
    (start_date end_date : option date) (seller_arg : option string) :
  get_filtered_data
    (get_filtered_data sales_data start_date end_date seller_arg)
    start_date end_date seller_arg
  = get_filtered_data sales_data start_date end_date seller_arg
  /\ get_filtered_data sales_data start_date end_date seller_arg
     = filter (keeps start_date end_date seller_arg) sales_data.
Proof.
  split; [|apply get_filtered_data_one_pass].
  rewrite !get_filtered_data_one_pass, filter_both.
  apply filter_ext. intros r. apply andb_diag.
Qed.

(** X4: when the end date is before the start date the filter returns the
    empty frame, whatever the store and the seller. *)
Theorem X4_inverted_range_is_empty (sales_data : DataFrame)
    (start_date end_date : date) (seller_arg : option string) :
  PyDate.ltb end_date start_date = true ->
  get_filtered_data sales_data (Some start_date) (Some end_date) seller_arg
  = [].
Proof.
  intros Hinv. rewrite get_filtered_data_one_pass.
  induction sales_data as [|r data IH]; [reflexivity|].
  cbn [filter]. rewrite IH.
  assert (Hr : keeps (Some start_date) (Some end_date) seller_arg r = false).
  { unfold keeps, geb, leb. unfold PyDate.ltb in Hinv.
    destruct (PyDate.compare end_date start_date) eqn:Hes;
      try discriminate Hinv.
    destruct (PyDate.compare (t_date r) start_date) eqn:Hrs;
      [|reflexivity|].
    - apply date_compare_eq in Hrs. rewrite Hrs.
      rewrite (date_compare_antisym start_date end_date), Hes. reflexivity.
    - rewrite (date_compare_antisym (t_date r) start_date) in Hrs.
      destruct (PyDate.compare start_date (t_date r)) eqn:Hsr;
        try discriminate Hrs.
      pose proof (date_compare_trans _ _ _ Hes Hsr) as Her.
      rewrite (date_compare_antisym (t_date r) end_date), Her. reflexivity. }
  rewrite Hr. reflexivity.
Qed.

Lemma X4_inverted_range_is_empty_witness :
  get_filtered_data scenario (Some (mkdate 2024 1 8)) (Some (mkdate 2024 1 1))
    (Some "A"%string) = [].
Proof.
  apply (X4_inverted_range_is_empty scenario (mkdate 2024 1 8)
           (mkdate 2024 1 1) (Some "A"%string)).
  reflexivity.
Defined.

(** ** The seller drop-down *)

Lemma existsb_eqb (x : string) (l : list string) :
  existsb (String.eqb x) l = true <-> In x l.
Proof.
  rewrite existsb_exists. split.
  - intros (y & Hy & Heq). apply String.eqb_eq in Heq. now subst.
  - intros Hin. exists x. split; [exact Hin|apply String.eqb_refl].
Qed.

Lemma unique_from (l seen : list string) :
  NoDup seen ->
  let out :=
    fold_left
      (fun seen x => if existsb (String.eqb x) seen then seen else seen ++ [x])
      l seen in
  NoDup out /\ (forall x, In x out <-> In x seen \/ In x l)
  /\ exists added, out = seen ++ added.
Proof.
  revert seen. induction l as [|y l IH]; intros seen Hnd; cbn.
  - split; [exact Hnd|]. split; [tauto|]. exists []. now rewrite app_nil_r.
  - destruct (existsb (String.eqb y) seen) eqn:Hy.
    + apply existsb_eqb in Hy.
      destruct (IH seen Hnd) as (H1 & H2 & H3).
      split; [exact H1|]. split; [|exact H3].
      intros x. rewrite H2. split; [tauto|].
      intros [H|[<-|H]]; tauto.
    + assert (Hnin : ~ In y seen).
      { intros Hin. apply existsb_eqb in Hin. congruence. }
      assert (Hnd' : NoDup (seen ++ [y])).
      { apply NoDup_app; [exact Hnd|repeat constructor; intros []|].
        intros x Hx [<-|[]]. contradiction. }
      destruct (IH (seen ++ [y]) Hnd') as (H1 & H2 & added & H3).
      split; [exact H1|]. split.
      * intros x. rewrite H2, in_app_iff. cbn. tauto.
      * exists (y :: added). rewrite H3, <- app_assoc. reflexivity.
Qed.

Lemma unique_spec (l : list string) :
  NoDup (unique l) /\ forall x, In x (unique l) <-> In x l.
Proof.
  destruct (unique_from l [] (NoDup_nil _)) as (H1 & H2 & _).
  split; [exact H1|]. intros x. rewrite (H2 x). cbn. tauto.
Qed.

(** X5: the drop-down offers "All" first and then each seller of the
    store once; on a store with rows every choice it offers, taken with no
    date bound, selects at least one row, and a choice other than "All"
    and the empty text selects exactly the rows of that seller. *)
Theorem X5_seller_options_select_rows (sales_data : DataFrame) :
  sales_data <> [] ->
  (exists sellers,
      seller_options sales_data = "All"%string :: sellers
      /\ NoDup sellers
      /\ forall s, In s sellers <-> exists r, In r sales_data /\ seller r = s)
  /\ (forall s, In s (seller_options sales_data) ->
      get_filtered_data sales_data None None (Some s) <> []
      /\ (s <> "All"%string -> s <> ""%string ->
          get_filtered_data sales_data None None (Some s)
          = filter (fun r => (seller r =? s)%string) sales_data)).
Proof.
  intros Hne.
  destruct (unique_spec (map seller sales_data)) as [Hnd Hin].
  split.
  - exists (unique (map seller sales_data)).
    split; [reflexivity|]. split; [exact Hnd|].
    intros s. rewrite Hin, in_map_iff.
    split; intros (r & H1 & H2); exists r; tauto.
  - intros s Hs.
    assert (Hall : s = "All"%string
                   \/ exists r, In r sales_data /\ seller r = s).
    { destruct Hs as [<-|Hs]; [now left|right].
      apply Hin, in_map_iff in Hs. destruct Hs as (r & H1 & H2).
      exists r. tauto. }
    rewrite get_filtered_data_one_pass. unfold keeps. cbn [andb].
    split.
    + destruct (truthy (Some s) && negb (s =? "All")%string) eqn:Hg.
      * destruct Hall as [->|(r & Hr & Hsel)]; [discriminate Hg|].
        intros Hnil.
        assert (Hrin : In r (filter (fun r => (seller r =? s)%string)
                                    sales_data)).
        { apply filter_In. split; [exact Hr|]. now apply String.eqb_eq. }
        rewrite Hnil in Hrin. exact Hrin.
      * rewrite filter_all. exact Hne.
    + intros Hnall Hnemp.
      destruct s as [|c s']; [congruence|].
      apply String.eqb_neq in Hnall. cbn [truthy andb].
      rewrite Hnall. reflexivity.
Qed.

Lemma X5_seller_options_select_rows_witness :
  seller_options ledger = ["All"; "A"; "B"]%string
  /\ get_filtered_data ledger None None (Some "B"%string) <> [].
Proof.
  destruct (X5_seller_options_select_rows ledger) as [_ Hsel];
    [discriminate|].
  split; [reflexivity|].
  apply (Hsel "B"%string). vm_compute. tauto.
Defined.

(** ** The rollups *)

Section GroupQuantities.

Context {K : Type}.
Variable cmp : K -> K -> comparison.
Variable key : Transaction -> K.

Lemma groups_quantity_insert k r (gs : Groups K) :
  Zsum (map (fun g => Zsum (map quantity (snd g))) (insert_row cmp k r gs))
  = Zsum (map (fun g => Zsum (map quantity (snd g))) gs) + quantity r.
Proof.
  induction gs as [|[k' rows] gs IH]; cbn [insert_row map snd].
  - rewrite !Zsum_cons. change (Zsum []) with 0. lia.
  - destruct (cmp k k'); cbn [map snd]; rewrite !Zsum_cons.
    + rewrite map_app, Zsum_app. cbn [map]. rewrite ?Zsum_cons.
      change (Zsum []) with 0. lia.
    + change (Zsum []) with 0. lia.
    + rewrite IH. lia.
Qed.

Lemma groups_quantity_groupby data :
  Zsum (map (fun g => Zsum (map quantity (snd g))) (groupby cmp key data))
  = Zsum (map quantity data).
Proof.
  induction data as [|r data IH] using rev_ind.
  - reflexivity.
  - rewrite groupby_snoc, groups_quantity_insert, IH, map_app, Zsum_app.
    cbn [map]. rewrite Zsum_cons. change (Zsum []) with 0. lia.
Qed.

Lemma buckets_resum (label : K -> IndexLabel) data :
  let buckets := map (agg_bucket label) (groupby cmp key data) in
  Zsum (map b_quantity buckets) = Zsum (map quantity data)
  /\ Zsum (map transaction_count buckets) = Z.of_nat (List.length data)
  /\ (data <> [] -> buckets <> []).
Proof.
  cbv zeta. rewrite !map_map.
  cbn [agg_bucket b_quantity transaction_count].
  split; [apply groups_quantity_groupby|].
  split; [apply (groups_count_groupby cmp key data)|].
  intros Hne Hnil. apply map_eq_nil in Hnil.
  exact (groupby_nonempty cmp key data Hne Hnil).
Qed.

End GroupQuantities.

Lemma calculate_analytics_rows (data : DataFrame) (period : string) :
  data <> [] -> known_period period ->
  exists (K : Type) (cmp : K -> K -> comparison) (key : Transaction -> K)
         (label : K -> IndexLabel),
    calculate_analytics data period
    = Ok (map (agg_bucket label) (groupby cmp key data)).
Proof.
  intros Hne Hp. destruct data as [|r data]; [congruence|].
  unfold calculate_analytics. cbv beta iota delta [empty].
  destruct Hp as [-> | [-> | ->]].
  - exists date, PyDate.compare, t_date, LDate. reflexivity.
  - exists date, PyDate.compare, (fun r => to_period_W (t_date r)),
      (fun w => LStr (str_period_W w)). reflexivity.
  - exists (Z * Z)%type, compare_period_M, (fun r => to_period_M (t_date r)),
      (fun m => LStr (str_period_M m)). reflexivity.
Qed.

Lemma rollup_totals (data : DataFrame) (period : string) :
  known_period period ->
  exists buckets,
    calculate_analytics data period = Ok buckets
    /\ Zsum (map b_quantity buckets) = Zsum (map quantity data)
    /\ Zsum (map transaction_count buckets) = Z.of_nat (List.length data)
    /\ (data <> [] -> buckets <> []).
Proof.
  intros Hp.
  destruct data as [|r0 data0] eqn:Hdata.
  { exists []. repeat split; try reflexivity. congruence. }
  rewrite <- Hdata.
  assert (Hne : data <> []) by (subst data; discriminate).
  destruct (calculate_analytics_rows data period Hne Hp)
    as (K & cmp & key & label & Hcalc).
  eexists. split; [exact Hcalc|].
  apply buckets_resum.
Qed.

(** X6: for each of the periods 'daily', 'weekly' and 'monthly' the
    rollup of any frame is returned, and over its buckets the quantities
    add up to the quantity of the frame and the transaction counts to its
    number of rows; a frame with rows gives at least one bucket. *)
Theorem X6_rollup_totals (data : DataFrame) (period : string) :
  known_period period ->
  exists buckets,
    calculate_analytics data period = Ok buckets
    /\ Zsum (map b_quantity buckets) = Zsum (map quantity data)
    /\ Zsum (map transaction_count buckets) = Z.of_nat (List.length data)
    /\ (data <> [] -> buckets <> []).
Proof.
  intros Hp. destruct (rollup_totals data period Hp) as (buckets & H).
  exists buckets. exact H.
Qed.

Lemma X6_rollup_totals_witness :
  exists buckets,
    calculate_analytics scenario "weekly" = Ok buckets
    /\ Zsum (map b_quantity buckets) = 4
    /\ Zsum (map transaction_count buckets) = 3.
Proof.
  destruct (X6_rollup_totals scenario "weekly")
    as (buckets & Hcalc & Hqty & Hcount & _).
  { right; left; reflexivity. }
  exists buckets. repeat split; assumption.
Defined.

Lemma on_date_iff (d : date) (r : Transaction) :
  on_date d r = true <-> t_date r = d.
Proof.
  apply (same_key_eq PyDate.compare date_compare_eq t_date).
Qed.

Lemma sorted_impl {A : Type} (R R' : A -> A -> Prop) (l : list A) :
  (forall a b, R a b -> R' a b) -> StronglySorted R l -> StronglySorted R' l.
Proof.
  intros Himp. induction 1 as [|a l _ IH Hall]; constructor; [exact IH|].
  eapply Forall_impl; [|exact Hall]. intros b. apply Himp.
Qed.

(** X7: the daily rollup lists its buckets by strictly increasing date,
    so no date has two buckets, and every bucket counts at least one
    transaction. *)
Theorem X7_daily_buckets_ascending (data : DataFrame) :
  exists buckets dates,
    calculate_analytics data "daily" = Ok buckets
    /\ map b_label buckets = map LDate dates
    /\ StronglySorted (fun a b => PyDate.ltb a b = true) dates
    /\ NoDup dates
    /\ Forall (fun b => 1 <= transaction_count b) buckets.
Proof.
  destruct data as [|r0 data0] eqn:Hdata.
  { exists [], []. repeat split; constructor. }
  rewrite <- Hdata.
  exists (map (agg_bucket LDate) (groupby PyDate.compare t_date data)),
         (map fst (groupby PyDate.compare t_date data)).
  split; [subst data; reflexivity|].
  split; [rewrite !map_map; reflexivity|].
  pose proof (groupby_sorted PyDate.compare date_compare_antisym
                date_compare_trans t_date data) as Hsorted.
  assert (Hlt : StronglySorted (fun a b => PyDate.ltb a b = true)
                  (map fst (groupby PyDate.compare t_date data))).
  { eapply sorted_impl; [|exact Hsorted].
    intros a b Hab. unfold key_lt in Hab. unfold PyDate.ltb.
    now rewrite Hab. }
  split; [exact Hlt|]. split.
  - clear Hsorted.
    induction Hlt as [|a l _ IH Hall]; constructor; [|exact IH].
    intros Hin. rewrite Forall_forall in Hall. specialize (Hall a Hin).
    unfold PyDate.ltb in Hall. rewrite compare_refl in Hall. discriminate.
  - apply Forall_map.
    eapply Forall_impl;
      [|exact (groupby_groups_nonempty PyDate.compare t_date data)].
    intros [k rows] Hrows. cbn in *. unfold len.
    destruct rows; [congruence|]. cbn [map List.length]. lia.
Qed.

(** X8: each bucket of the daily rollup belongs to a date on which the
    frame has a row, and holds the summed amount, the summed quantity and
    the number of the rows of that date; every date of the frame has its
    bucket. *)
Theorem X8_daily_bucket_contents (data : DataFrame) :
  exists buckets,
    calculate_analytics data "daily" = Ok buckets
    /\ (forall b, In b buckets ->
        exists d,
          b_label b = LDate d
          /\ (exists r, In r data /\ t_date r = d)
          /\ b_total_amount b
             = Qsum (map total_amount (filter (on_date d) data))
          /\ b_quantity b = Zsum (map quantity (filter (on_date d) data))
          /\ transaction_count b
             = Z.of_nat (List.length (filter (on_date d) data)))
    /\ (forall r, In r data ->
        exists b, In b buckets /\ b_label b = LDate (t_date r)).
Proof.
  destruct data as [|r0 data0] eqn:Hdata.
  { exists []. split; [reflexivity|]. split; intros ? []. }
  rewrite <- Hdata.
  exists (map (agg_bucket LDate) (groupby PyDate.compare t_date data)).
  split; [subst data; reflexivity|].
  pose proof (groupby_sorted PyDate.compare date_compare_antisym
                date_compare_trans t_date data) as Hsorted.
  split.
  - intros b Hb. apply in_map_iff in Hb as ([d rows] & <- & Hg).
    exists d. cbn [agg_bucket b_label b_total_amount b_quantity
                   transaction_count fst snd].
    assert (Hrows : rows = filter (on_date d) data).
    { rewrite <- (rows_of_member PyDate.compare date_compare_eq
                    date_compare_antisym d rows _ Hsorted Hg).
      apply (rows_of_groupby PyDate.compare date_compare_eq
               date_compare_antisym date_compare_trans t_date d data). }
    split; [reflexivity|]. split.
    + pose proof (groupby_groups_nonempty PyDate.compare t_date data) as Hall.
      rewrite Forall_forall in Hall. specialize (Hall _ Hg). cbn in Hall.
      destruct rows as [|r rows]; [congruence|].
      assert (Hr : In r (filter (on_date d) data))
        by (rewrite <- Hrows; now left).
      apply filter_In in Hr as [Hr Hd]. exists r. split; [exact Hr|].
      now apply on_date_iff.
    + rewrite <- Hrows. unfold len. rewrite length_map. repeat split.
  - intros r Hr.
    pose proof (groupby_has_key PyDate.compare date_compare_eq t_date data r Hr)
      as Hk.
    apply in_map_iff in Hk as ([d rows] & Hd & Hg). cbn in Hd. subst d.
    exists (agg_bucket LDate (t_date r, rows)).
    split; [|reflexivity].
    apply in_map_iff. exists (t_date r, rows). split; [reflexivity|exact Hg].
Qed.

(** ** The value at the top of a grouped sum *)

Lemma Qltb_trans (a b c : Q) :
  Qltb a b = true -> Qltb b c = true -> Qltb a c = true.
Proof.
  rewrite !Qltb_lt. apply Qlt_trans.
Qed.

Lemma Qltb_asym (a b : Q) : Qltb a b = true -> Qltb b a = false.
Proof.
  rewrite Qltb_lt, Qltb_ge. apply Qlt_le_weak.
Qed.

Lemma Qltb_le_lt (a b c : Q) :
  Qltb a b = false -> Qltb a c = true -> Qltb b c = true.
Proof.
  rewrite Qltb_ge, !Qltb_lt. apply Qle_lt_trans.
Qed.

Lemma Zltb_trans (a b c : Z) :
  (a <? b) = true -> (b <? c) = true -> (a <? c) = true.
Proof.
  rewrite !Z.ltb_lt. lia.
Qed.

Lemma Zltb_asym (a b : Z) : (a <? b) = true -> (b <? a) = false.
Proof.
  rewrite Z.ltb_lt, Z.ltb_ge. lia.
Qed.

Lemma Zltb_le_lt (a b c : Z) :
  (a <? b) = false -> (a <? c) = true -> (b <? c) = true.
Proof.
  rewrite Z.ltb_ge, !Z.ltb_lt. lia.
Qed.

Section TopValue.

Context {K V : Type}.
Variable cmp : K -> K -> comparison.
Hypothesis cmp_eq : forall a b, cmp a b = Eq <-> a = b.
Hypothesis cmp_antisym : forall a b, cmp a b = CompOpp (cmp b a).
Hypothesis cmp_trans :
  forall a b c, cmp a b = Lt -> cmp b c = Lt -> cmp a c = Lt.
Variable ltb : V -> V -> bool.
Variable key : Transaction -> K.
Variable f : DataFrame -> V.

Lemma argmax_from_in (s : Series K V) : forall best,
  In (argmax_from ltb best s) (best :: s).
Proof.
  induction s as [|kv s IH]; intros best; cbn [argmax_from].
  - now left.
  - destruct (ltb (snd best) (snd kv)).
    + right. apply IH.
    + destruct (IH best) as [H|H]; [now left|right; now right].
Qed.

Lemma series_max_argmax (s : Series K V) : forall best,
  fold_left (fun acc e => if ltb acc (snd e) then snd e else acc) s (snd best)
  = snd (argmax_from ltb best s).
Proof.
  induction s as [|kv s IH]; intros best; cbn [fold_left argmax_from].
  - reflexivity.
  - destruct (ltb (snd best) (snd kv)); apply IH.
Qed.

(** [max()] of a grouped aggregate is the aggregate of the key that
    [idxmax()] names. *)
Lemma series_max_groupby data k :
  idxmax ltb (agg f (groupby cmp key data)) = Ok k ->
  series_max ltb (agg f (groupby cmp key data))
  = Some (f (filter (same_key cmp key k) data)).
Proof.
  pose proof (agg_entry cmp cmp_eq cmp_antisym cmp_trans key f data) as Hentry.
  destruct (agg f (groupby cmp key data)) as [|kv s]; [discriminate|].
  cbn [idxmax series_max]. intros Hk. injection Hk as <-.
  rewrite series_max_argmax. f_equal.
  apply Hentry, argmax_from_in.
Qed.

End TopValue.

Lemma top_of_frame (data : DataFrame) :
  data <> [] ->
  exists ts tp,
    idxmax Qltb (seller_totals data) = Ok ts
    /\ idxmax Z.ltb (product_quantities data) = Ok tp
    /\ series_max Qltb (seller_totals data) = Some (seller_revenue data ts)
    /\ series_max Z.ltb (product_quantities data)
       = Some (product_quantity data tp)
    /\ (exists r, In r data /\ seller r = ts)
    /\ (exists r, In r data /\ product_name r = tp).
Proof.
  intros Hne.
  destruct (idxmax_groupby String.compare String_as_OT.cmp_eq
              String.compare_antisym string_compare_trans Qltb
              Qltb_trans Qltb_asym Qltb_le_lt
              seller (fun rows => Qsum (map total_amount rows)) data Hne)
    as (ts & Hts & Hts_in & _).
  destruct (idxmax_groupby String.compare String_as_OT.cmp_eq
              String.compare_antisym string_compare_trans Z.ltb
              Zltb_trans Zltb_asym Zltb_le_lt
              product_name (fun rows => Zsum (map quantity rows)) data Hne)
    as (tp & Htp & Htp_in & _).
  exists ts, tp. unfold seller_totals, product_quantities.
  split; [exact Hts|]. split; [exact Htp|].
  split; [|split; [|split; assumption]].
  - rewrite (series_max_groupby String.compare String_as_OT.cmp_eq
               String.compare_antisym string_compare_trans Qltb seller
               _ data ts Hts).
    unfold seller_revenue. now rewrite same_key_string.
  - rewrite (series_max_groupby String.compare String_as_OT.cmp_eq
               String.compare_antisym string_compare_trans Z.ltb product_name
               _ data tp Htp).
    unfold product_quantity. now rewrite same_key_string.
Qed.

(** X9: the revenue shown beside the top seller is that seller's summed
    amount, and the quantity shown beside the top product is that
    product's summed quantity, although each pair is computed by two
    separate reductions; both names are names of rows of the frame. *)
Theorem X9_top_values_match_names (today : date) (data : DataFrame) :
  data <> [] ->
  exists m,
    calculate_business_metrics today data = Ok (Dict m)
    /\ top_seller_revenue m = Some (seller_revenue data (top_seller m))
    /\ top_product_qty m = Some (product_quantity data (top_product m))
    /\ (exists r, In r data /\ seller r = top_seller m)
    /\ (exists r, In r data /\ product_name r = top_product m).
Proof.
  intros Hne.
  destruct (top_of_frame data Hne)
    as (ts & tp & Hts & Htp & Hrev & Hqty & Hs & Hp).
  destruct (calculate_business_metrics_rows today data Hne)
    as (ts' & tp' & Hts' & Htp' & Hm).
  rewrite Hts in Hts'. rewrite Htp in Htp'.
  injection Hts' as <-. injection Htp' as <-.
  eexists. split; [exact Hm|].
  cbn [top_seller_revenue top_seller top_product_qty top_product].
  repeat split; assumption.
Qed.

Lemma X9_top_values_match_names_witness :
  exists m,
    calculate_business_metrics (mkdate 2024 1 10) scenario = Ok (Dict m)
    /\ top_seller_revenue m = Some (seller_revenue scenario (top_seller m))
    /\ top_product_qty m = Some (product_quantity scenario (top_product m)).
Proof.
  destruct (X9_top_values_match_names (mkdate 2024 1 10) scenario)
    as (m & Hm & Hrev & Hqty & _); [discriminate|].
  exists m. repeat split; assumption.
Defined.

(** ** Bounds between the metrics *)

Lemma amounts_nonneg_cons (r : Transaction) (data : DataFrame) :
  amounts_nonneg (r :: data) ->
  (0 <= total_amount r)%Q /\ amounts_nonneg data.
Proof.
  intros H. inversion H; subst. now split.
Qed.

Lemma amount_nonneg (data : DataFrame) :
  amounts_nonneg data -> (0 <= Qsum (map total_amount data))%Q.
Proof.
  intros H. apply Qsum_nonneg, Forall_map. exact H.
Qed.

Lemma amount_of_filter (f : Transaction -> bool) (data : DataFrame) :
  amounts_nonneg data ->
  (Qsum (map total_amount (filter f data)) <= Qsum (map total_amount data))%Q.
Proof.
  induction data as [|r data IH]; intros Hpos.
  - cbn [filter map]. lra.
  - apply amounts_nonneg_cons in Hpos as [Hr Hpos]. specialize (IH Hpos).
    cbn [filter map]. destruct (f r); cbn [map]; rewrite !Qsum_cons; lra.
Qed.

Lemma rows_of_filter {A : Type} (f : A -> bool) (l : list A) :
  len (filter f l) <= len l.
Proof.
  unfold len. induction l as [|x l IH]; cbn [filter]; [lia|].
  destruct (f x); cbn [List.length]; lia.
Qed.

(** X10: when no amount of the frame is negative, the month's revenue
    and the top seller's revenue are each at most the total revenue, the
    month's transactions are at most all transactions, the daily average
    is not negative and the growth rate is never below -100. *)
Theorem X10_metric_bounds (today : date) (data : DataFrame) :
  data <> [] ->
  amounts_nonneg data ->
  exists m,
    calculate_business_metrics today data = Ok (Dict m)
    /\ (0 <= total_revenue m)%Q
    /\ (monthly_revenue m <= total_revenue m)%Q
    /\ monthly_transactions m <= total_transactions m
    /\ (exists v, top_seller_revenue m = Some v /\ (v <= total_revenue m)%Q)
    /\ (0 <= daily_avg m)%Q
    /\ (-100 <= growth_rate m)%Q.
Proof.
  intros Hne Hpos.
  destruct (top_of_frame data Hne) as (ts & tp & _ & _ & Hrev & _).
  destruct (calculate_business_metrics_rows today data Hne)
    as (ts' & tp' & _ & _ & Hm).
  eexists. split; [exact Hm|].
  cbn [total_revenue monthly_revenue monthly_transactions total_transactions
       top_seller_revenue daily_avg growth_rate].
  assert (Hweek : (0 <= this_week_revenue today data)%Q).
  { unfold this_week_revenue. apply Qsum_nonneg, Forall_map.
    apply Forall_forall. intros r Hr. apply filter_In in Hr as [Hr _].
    unfold amounts_nonneg in Hpos. rewrite Forall_forall in Hpos.
    apply Hpos, Hr. }
  split; [apply amount_nonneg, Hpos|].
  split; [apply amount_of_filter, Hpos|].
  split; [apply rows_of_filter|].
  split; [exists (seller_revenue data ts); split;
          [exact Hrev|apply amount_of_filter, Hpos]|].
  split.
  - destruct (empty (recent_data today data)); cbn [negb]; [lra|].
    fold (this_week_revenue today data).
    unfold Qdiv. apply Qmult_le_0_compat; [exact Hweek|].
    apply Qinv_le_0_compat. lra.
  - destruct (Qltb 0 (last_week_revenue today data)) eqn:Hlast; [|lra].
    apply Qltb_lt in Hlast.
    set (tw := this_week_revenue today data) in *.
    set (lw := last_week_revenue today data) in *.
    assert (Hratio : (0 <= tw / lw)%Q).
    { unfold Qdiv. apply Qmult_le_0_compat; [exact Hweek|].
      apply Qinv_le_0_compat. lra. }
    assert (Heq : ((tw - lw) / lw * 100 == tw / lw * 100 - 100)%Q).
    { field. intros H0. rewrite H0 in Hlast. lra. }
    rewrite Heq. lra.
Qed.

Lemma X10_metric_bounds_witness :
  exists m,
    calculate_business_metrics (mkdate 2024 1 10) scenario = Ok (Dict m)
    /\ (monthly_revenue m <= total_revenue m)%Q
    /\ (-100 <= growth_rate m)%Q.
Proof.
  destruct (X10_metric_bounds (mkdate 2024 1 10) scenario)
    as (m & Hm & _ & Hmonth & _ & _ & _ & Hgrowth).
  - discriminate.
  - repeat constructor; vm_compute; discriminate.
  - exists m. repeat split; assumption.
Defined.

(** ** The trend chart and the daily average *)

Lemma daily_groups (data : DataFrame) :
  Forall (fun g => snd g = filter (on_date (fst g)) data
                   /\ exists r, In r data /\ t_date r = fst g)
         (groupby PyDate.compare t_date data).
Proof.
  pose proof (groupby_sorted PyDate.compare date_compare_antisym
                date_compare_trans t_date data) as Hsorted.
  pose proof (groupby_groups_nonempty PyDate.compare t_date data) as Hall.
  rewrite Forall_forall in Hall. apply Forall_forall. intros [d rows] Hg.
  cbn [fst snd].
  assert (Hrows : rows = filter (on_date d) data).
  { rewrite <- (rows_of_member PyDate.compare date_compare_eq
                  date_compare_antisym d rows _ Hsorted Hg).
    apply (rows_of_groupby PyDate.compare date_compare_eq
             date_compare_antisym date_compare_trans t_date d data). }
  split; [exact Hrows|].
  specialize (Hall _ Hg). cbn in Hall.
  destruct rows as [|r rows]; [congruence|].
  assert (Hr : In r (filter (on_date d) data)) by (rewrite <- Hrows; now left).
  apply filter_In in Hr as [Hr Hd]. exists r. split; [exact Hr|].
  now apply on_date_iff.
Qed.

(** X11: the trend chart of the dashboard is drawn exactly when some row
    is dated on or after the day seven days back, the window of the daily
    average; it then shows, by increasing date, exactly the dates of that
    window on which the frame has rows, each with the sum of the amounts
    of all the rows of that date, and the daily average is the sum of the
    amounts of the window divided by 7; when the chart is not drawn the
    daily average is 0. *)
Theorem X11_trend_chart_window (today : date) (data : DataFrame) :
  data <> [] ->
  exists m,
    calculate_business_metrics today data = Ok (Dict m)
    /\ match daily_trend today data with
       | Some trend =>
           trend <> []
           /\ daily_avg m
              = (Qsum (map total_amount
                         (filter (fun r => geb (t_date r) (sub_days today 7))
                                 data)) / 7)%Q
           /\ StronglySorted (fun a b => PyDate.ltb a b = true) (map fst trend)
           /\ Forall (fun point =>
                        geb (fst point) (sub_days today 7) = true
                        /\ (exists r, In r data /\ t_date r = fst point)
                        /\ snd point
                           = Qsum (map total_amount
                                       (filter (on_date (fst point)) data)))
                     trend
           /\ (forall r, In r data ->
                         geb (t_date r) (sub_days today 7) = true ->
                         In (t_date r) (map fst trend))
       | None =>
           (forall r, In r data -> geb (t_date r) (sub_days today 7) = false)
           /\ daily_avg m = 0%Q
       end.
Proof.
  intros Hne.
  destruct (calculate_business_metrics_rows today data Hne)
    as (ts & tp & _ & _ & Hm).
  eexists. split; [exact Hm|]. cbn [daily_avg].
  unfold daily_trend.
  destruct (recent_data today data) as [|r0 recent0] eqn:Hrecent;
    cbv beta iota zeta delta [empty negb].
  - split; [|reflexivity].
    intros r Hr. destruct (geb (t_date r) (sub_days today 7)) eqn:Hg;
      [|reflexivity].
    assert (Hin : In r (recent_data today data)).
    { unfold recent_data, week_ago. apply filter_In. now split. }
    rewrite Hrecent in Hin. destruct Hin.
  - rewrite <- Hrecent.
    assert (Hrec : recent_data today data <> [])
      by (rewrite Hrecent; discriminate).
    split; [apply agg_nonempty, groupby_nonempty, Hrec|].
    split; [reflexivity|].
    split.
    { unfold agg. rewrite map_map. cbn [fst].
      eapply sorted_impl;
        [|exact (groupby_sorted PyDate.compare date_compare_antisym
                   date_compare_trans t_date (recent_data today data))].
      intros a b Hab. unfold key_lt in Hab. unfold PyDate.ltb.
      now rewrite Hab. }
    split.
    { unfold agg. apply Forall_map.
      eapply Forall_impl; [|exact (daily_groups (recent_data today data))].
      intros [d rows] [Hrows (r & Hr & Hd)]. cbn [fst snd] in *.
      unfold recent_data, week_ago in Hr. apply filter_In in Hr as [Hr Hw].
      rewrite Hd in Hw.
      split; [exact Hw|]. split; [exists r; now split|].
      rewrite Hrows. unfold recent_data, week_ago. rewrite filter_both.
      do 2 f_equal. apply filter_ext_in. intros x _.
      destruct (on_date d x) eqn:Hx; [|apply andb_false_r].
      apply on_date_iff in Hx. rewrite Hx, Hw. reflexivity. }
    intros r Hr Hw.
    assert (Hin : In r (recent_data today data)).
    { unfold recent_data, week_ago. apply filter_In. now split. }
    unfold agg. rewrite map_map. cbn [fst].
    exact (groupby_has_key PyDate.compare date_compare_eq t_date _ r Hin).
Qed.

Lemma X11_trend_chart_window_witness :
  exists m trend,
    calculate_business_metrics (mkdate 2024 1 10) scenario = Ok (Dict m)
    /\ daily_trend (mkdate 2024 1 10) scenario = Some trend
    /\ map fst trend = [mkdate 2024 1 8].
Proof.
  destruct (X11_trend_chart_window (mkdate 2024 1 10) scenario)
    as (m & Hm & _); [discriminate|].
  exists m. eexists. split; [exact Hm|]. split; reflexivity.
Defined.

(** ** The dashboard of a store filled through the form *)

Lemma Qsum_positive (x : Q) (l : list Q) :
  Forall (fun y => 0 < y)%Q (x :: l) -> (0 < Qsum (x :: l))%Q.
Proof.
  intros H. inversion H as [|? ? Hx Hl]; subst.
  rewrite Qsum_cons.
  assert (Hrest : (0 <= Qsum l)%Q).
  { apply Qsum_nonneg. eapply Forall_impl; [|exact Hl].
    intros y. apply Qlt_le_weak. }
  lra.
Qed.

Lemma Zsum_positive (x : Z) (l : list Z) :
  Forall (fun y => 0 < y) (x :: l) -> 0 < Zsum (x :: l).
Proof.
  revert x. induction l as [|y l IH]; intros x H.
  - inversion H; subst. rewrite Zsum_cons. change (Zsum []) with 0. lia.
  - inversion H as [|? ? Hx Hl]; subst. specialize (IH y Hl).
    rewrite Zsum_cons. lia.
Qed.

(** X12: on a store with rows that was filled through the form, the
    dashboard gets its metrics, with a positive total revenue, a positive
    total quantity, a positive average order value, and a top seller and a
    top product whose names are not empty. *)
Theorem X12_dashboard_of_form_store (today : date) (sales_data : DataFrame) :
  form_reachable sales_data ->
  sales_data <> [] ->
  exists m,
    calculate_business_metrics today sales_data = Ok (Dict m)
    /\ (0 < total_revenue m)%Q
    /\ 0 < total_quantity m
    /\ (exists a, avg_order_value m = Some a /\ (0 < a)%Q)
    /\ top_seller m <> ""%string
    /\ top_product m <> ""%string.
Proof.
  intros Hreach Hne.
  destruct (rows_valid_of_form sales_data Hreach) as [Hvalid Hpos].
  destruct (top_of_frame sales_data Hne)
    as (ts & tp & Hts & Htp & _ & _ & (rs & Hrs & Hs) & (rp & Hrp & Hp)).
  destruct (calculate_business_metrics_rows today sales_data Hne)
    as (ts' & tp' & Hts' & Htp' & Hm).
  rewrite Hts in Hts'. rewrite Htp in Htp'.
  injection Hts' as <-. injection Htp' as <-.
  eexists. split; [exact Hm|].
  cbn [total_revenue total_quantity avg_order_value top_seller top_product].
  rewrite Forall_forall in Hvalid.
  destruct sales_data as [|r data]; [congruence|].
  assert (Hrev : (0 < Qsum (map total_amount (r :: data)))%Q).
  { cbn [map]. apply Qsum_positive.
    change (Forall (fun y => 0 < y)%Q (map total_amount (r :: data))).
    apply Forall_map. exact Hpos. }
  split; [exact Hrev|]. split.
  { cbn [map]. apply Zsum_positive.
    change (Forall (fun y => 0 < y) (map quantity (r :: data))).
    apply Forall_map, Forall_forall. intros x Hx.
    now destruct (Hvalid x Hx) as (_ & _ & _ & Hq & _). }
  split.
  { eexists. split; [reflexivity|].
    unfold Qdiv. apply Qmult_lt_0_compat; [exact Hrev|].
    apply Qinv_lt_0_compat. unfold len, Qlt. cbn. lia. }
  split.
  - rewrite <- Hs. now destruct (Hvalid rs Hrs) as (_ & H & _).
  - rewrite <- Hp. now destruct (Hvalid rp Hrp) as (H & _).
Qed.

Lemma X12_dashboard_of_form_store_witness :
  exists m,
    calculate_business_metrics (mkdate 2024 1 10) ledger = Ok (Dict m)
    /\ (0 < total_revenue m)%Q
    /\ top_seller m <> ""%string.
Proof.
  destruct (X12_dashboard_of_form_store (mkdate 2024 1 10) ledger)
    as (m & Hm & Hrev & _ & _ & Hseller & _).
  - unfold ledger. repeat apply form_submit. apply form_init.
  - discriminate.
  - exists m. repeat split; assumption.
Defined.

(** ** The "Analytics" page *)

(** X13: with one of the three periods of its selector, the "Analytics"
    page gets a rollup from every call of [calculate_analytics] it makes
    and never reaches its "No analytics data available" message: it
    reports no transactions exactly on an empty store, no data exactly
    when no row of a store with rows passes the date bounds, and otherwise
    charts the rollup of the rows that pass, which has at least one bucket
    and whose transaction counts add up to the number of those rows. *)
Theorem X13_analytics_page (sales_data : DataFrame) (period : string)
    (start_date end_date : option date) :
  known_period period ->
  let filtered_data :=
    get_filtered_data sales_data start_date end_date None in
  exists page,
    analytics_page sales_data period start_date end_date = Ok page
    /\ page <> NoAnalyticsData
    /\ (page = NoTransactions <-> sales_data = [])
    /\ (page = NoDataInRange <-> sales_data <> [] /\ filtered_data = [])
    /\ (forall analytics_data, page = Charts analytics_data ->
        analytics_data <> []
        /\ filtered_data <> []
        /\ calculate_analytics filtered_data period = Ok analytics_data
        /\ Zsum (map transaction_count analytics_data)
           = Z.of_nat (List.length filtered_data)).
Proof.
  intros Hp. cbv zeta. unfold analytics_page.
  destruct sales_data as [|r0 data0].
  - exists NoTransactions. cbn [empty].
    split; [reflexivity|]. split; [discriminate|]. split; [tauto|].
    split; [split; [discriminate|intros [H _]; congruence]|].
    intros a H. discriminate H.
  - cbv beta iota delta [empty].
    remember (get_filtered_data (r0 :: data0) start_date end_date None)
      as filtered eqn:Hf.
    destruct filtered as [|f0 fs].
    + exists NoDataInRange.
      split; [reflexivity|]. split; [discriminate|].
      split; [split; discriminate|].
      split; [split; [intros _; split; [discriminate|reflexivity]
                     |reflexivity]|].
      intros a H. discriminate H.
    + destruct (rollup_totals (f0 :: fs) period Hp)
        as (buckets & Hcalc & _ & Hcount & Hbne).
      rewrite Hcalc. cbn [bind].
      assert (Hb : buckets <> []) by (apply Hbne; discriminate).
      destruct buckets as [|b0 bs]; [congruence|].
      exists (Charts (b0 :: bs)).
      split; [reflexivity|]. split; [discriminate|].
      split; [split; discriminate|].
      split; [split; [discriminate|intros [_ H]; discriminate H]|].
      intros a Heq. injection Heq as <-.
      repeat split; try discriminate; assumption.
Qed.

Lemma X13_analytics_page_witness :
  exists analytics_data,
    analytics_page scenario "monthly" None (Some (mkdate 2024 1 5))
    = Ok (Charts analytics_data).
Proof.
  destruct (X13_analytics_page scenario "monthly" None (Some (mkdate 2024 1 5)))
    as (page & Hpage & _).
  { right; right; reflexivity. }
  rewrite Hpage. vm_compute in Hpage. injection Hpage as <-.
  eexists. reflexivity.
Defined.

(** * Windows, rounding and ties *)

(** ** Binary64 sums *)

Example double_sums :
  Float64.of_decimal (1 # 10) = S754_finite false 7205759403792794 (-56)
  /\ Float64.sum (map Float64.of_decimal [1 # 10; 2 # 10; 3 # 10])
     = S754_finite false 5404319552844596 (-53)
  /\ Float64.sum (map Float64.of_decimal [3 # 10; 2 # 10; 1 # 10])
     = S754_finite false 5404319552844595 (-53)
  /\ Float64.sum (map Float64.of_decimal [100; 500; 100]%Q)
     = Float64.of_Z 700.
Proof. repeat split; vm_compute; reflexivity. Qed.

(** ** The growth rate *)





(** ** The daily buckets *)

Section GroupRows.

Context {K : Type}.
Variable cmp : K -> K -> comparison.
Variable key : Transaction -> K.

Lemma insert_row_rows k r (gs : Groups K) :
  Permutation (List.concat (map snd (insert_row cmp k r gs)))
              (r :: List.concat (map snd gs)).
Proof.
  induction gs as [|[k' rows] gs IH]; cbn [insert_row map snd List.concat].
  - reflexivity.
  - destruct (cmp k k'); cbn [map snd List.concat].
    + rewrite <- app_assoc. cbn [app].
      symmetry. apply Permutation_middle.
    + reflexivity.
    + rewrite IH. symmetry. apply Permutation_middle.
Qed.

(** The groups hold the rows of the frame, each row once. *)
Lemma groupby_rows data :
  Permutation (List.concat (map snd (groupby cmp key data))) data.
Proof.
  induction data as [|r data IH] using rev_ind.
  - reflexivity.
  - rewrite groupby_snoc, insert_row_rows, IH.
    apply Permutation_cons_append.
Qed.

End GroupRows.

Lemma strictly_sorted_nodup {A : Type} (R : A -> A -> Prop) (l : list A) :
  (forall a, ~ R a a) -> StronglySorted R l -> NoDup l.
Proof.
  intros Hirr. induction 1 as [|a l _ IH Hall]; constructor; [|exact IH].
  intros Hin. rewrite Forall_forall in Hall. exact (Hirr a (Hall a Hin)).
Qed.

(** C8 (as stated) fails in the arithmetic of the program: for 0.1 on one
    day and 0.2 and 0.3 on the next, the buckets hold 0.1 and 0.5 and add
    up to 0.6, while the column adds up to 0.6000000000000001. *)
Lemma C8_rounding_counterexample :
  map fst (Float64.daily_totals drifting) = [mkdate 2024 1 1; mkdate 2024 1 2]
  /\ Float64.sum (map snd (Float64.daily_totals drifting))
     = S754_finite false 5404319552844595 (-53)
  /\ Float64.total drifting = S754_finite false 5404319552844596 (-53)
  /\ Float64.sum (map snd (Float64.daily_totals drifting))
     <> Float64.total drifting.
Proof.
  repeat split; try (vm_compute; reflexivity).
  vm_compute. discriminate.
Qed.

(** C8 (as the program has it): the daily rollup of any frame is returned
    and counts every row in one bucket and one only: its buckets are those
    of groups of rows that together hold the rows of the frame, each row
    once, one group for each date with the rows of that date in the order
    of the frame; a bucket holds the amounts and the quantities of its
    rows added in that order and their number, and over the buckets the
    transaction counts add up to the number of rows and the quantities to
    the quantity of the frame. *)
Theorem C8_daily_buckets_partition (data : DataFrame) :
  exists buckets groups,
    calculate_analytics data "daily" = Ok buckets
    /\ buckets
       = map (fun g => mkBucket (LDate (fst g))
                                (Qsum (map total_amount (snd g)))
                                (Zsum (map quantity (snd g)))
                                (Z.of_nat (List.length (snd g))))
             groups
    /\ Permutation (List.concat (map snd groups)) data
    /\ NoDup (map fst groups)
    /\ Forall (fun g => snd g = filter (on_date (fst g)) data) groups
    /\ Zsum (map transaction_count buckets) = Z.of_nat (List.length data)
    /\ Zsum (map b_quantity buckets) = Zsum (map quantity data).
Proof.
  set (groups := groupby PyDate.compare t_date data).
  exists (map (agg_bucket LDate) groups), groups.
  split.
  { destruct data as [|r0 data0]; reflexivity. }
  split.
  { apply map_ext. intros g. unfold agg_bucket, len.
    now rewrite length_map. }
  split; [apply groupby_rows|].
  split.
  { pose proof (groupby_sorted PyDate.compare date_compare_antisym
                  date_compare_trans t_date data) as Hsorted.
    fold groups in Hsorted.
    eapply strictly_sorted_nodup; [|exact Hsorted].
    intros a Ha. unfold key_lt in Ha. rewrite compare_refl in Ha.
    discriminate Ha. }
  split.
  { eapply Forall_impl; [|exact (daily_groups data)]. intros g [H _]. exact H. }
  destruct (buckets_resum PyDate.compare t_date LDate data)
    as (Hqty & Hcount & _).
  split; assumption.
Qed.

(** ** The seller and the product at the top *)


